(** * PrettyPandas: summaries, formatters and the render pipeline

    A shallow embedding of [prettypandas/styler.py].  The class
    [PrettyPandas] is a thin layer over pandas: every method is a short
    orchestration of [DataFrame] operations.  The development therefore has
    two layers:

    - [Module pd]: a small executable model of the pandas operations that
      the class calls ([concat], [apply], [iterrows], label selection,
      [.loc] assignment, ...), over labelled tables of scalar cells;
    - the methods of [PrettyPandas] themselves, written in a state and
      exception monad over the instance ([self]), statement by statement
      as in the Python source.

    Numbers are integers ([Z]): a float is modelled by the integer it
    equals, so the upcast of an integer column to float is invisible.  Of
    the dtype inference of pandas, the storage of [None] as NaN in a column
    of numbers is modelled ([pd.maybe_convert_objects]).  Labels are
    strings.

    Callables handed in by the caller (aggregation and formatting
    functions) are total functions on scalars: a function that raises, or
    that returns a list or a [Series], is outside the model.  An
    assignment through [.loc] is modelled as a cell-by-cell update, which
    is what pandas does when the selection lists no label twice on an axis
    without repeated labels ([pd.unique_selection]). *)

From Stdlib Require Import String Ascii ZArith Bool Lia Arith DecimalString List.
Import ListNotations.
Open Scope string_scope.
Open Scope list_scope.

(** ** Scalars, labels and exceptions *)

(** A cell of a table: a number, a string, Python's [None] or NaN. *)
Inductive value : Type :=
| VInt (z : Z)
| VStr (s : string)
| VNone
| VNaN.

Definition label := string.

(** Keyword arguments ([**kwargs]) as an association list. *)
Definition kwargs := list (string * value).

(** The exceptions that the modelled code and library calls can raise. *)
Inductive exn : Type :=
| ValueError (msg : string)
| KeyError (msg : string)
| IndexError (msg : string)
| InvalidIndexError (msg : string).

(** Result of a pure library call that may raise. *)
Inductive result (A : Type) : Type :=
| Ok (a : A)
| Raise (e : exn).
Arguments Ok {A} a.
Arguments Raise {A} e.

Definition rbind {A B} (r : result A) (k : A -> result B) : result B :=
  match r with
  | Ok a => k a
  | Raise e => Raise e
  end.

(** Python's [x in xs] on a list of labels. *)
Definition mem (x : label) (xs : list label) : bool :=
  existsb (String.eqb x) xs.

Definition list_eqb (xs ys : list label) : bool :=
  if list_eq_dec string_dec xs ys then true else false.

(** ['{}'.format(n)] for a non-negative integer. *)
Definition string_of_nat (n : nat) : string :=
  NilEmpty.string_of_uint (Nat.to_uint n).

(** Python's [needle in haystack] on strings (substring test). *)
Fixpoint contains (needle hay : string) : bool :=
  String.prefix needle hay
  || match hay with
     | EmptyString => false
     | String _ rest => contains needle rest
     end.

(** ** A model of the pandas operations used by the class *)

Module pd.

(** A pandas [Index]: the labels of an axis and the names of its levels. *)
Record Index : Type := mkIndex {
  labels : list label;
  names : list (option string)
}.

(** A [DataFrame]: row index, column index and the cells, row by row. *)
Record DataFrame : Type := mkDataFrame {
  index : Index;
  columns : Index;
  values : list (list value)
}.

(** A [Series]: one value per label. *)
Record Series : Type := mkSeries {
  s_index : Index;
  s_values : list value
}.

(** [len(index)] / [index.size]. *)
Definition size (ix : Index) : nat := length (labels ix).

(** [df.shape]. *)
Definition shape (df : DataFrame) : nat * nat :=
  (size (index df), size (columns df)).

(** A frame is rectangular when it has one row of cells per row label and
    one cell per column label in each row. *)
Definition wf (df : DataFrame) : bool :=
  (length (values df) =? size (index df))%nat
  && forallb (fun row => (length row =? size (columns df))%nat) (values df).

(** [x in index]. *)
Definition contains_label (x : label) (ix : Index) : bool :=
  mem x (labels ix).

(** The cells of the column at position [j]. *)
Definition column_values (df : DataFrame) (j : nat) : list value :=
  map (fun row => nth j row VNaN) (values df).

(** [df.iterrows()]: the pairs (row label, cells of the row). *)
Definition iterrows (df : DataFrame) : list (label * list value) :=
  combine (labels (index df)) (values df).

(** [df.iteritems()]: the pairs (column label, cells of the column). *)
Definition iteritems (df : DataFrame) : list (label * list value) :=
  combine (labels (columns df))
          (map (column_values df) (seq 0 (size (columns df)))).

(** [df.T]. *)
Definition T (df : DataFrame) : DataFrame :=
  {| index := columns df;
     columns := index df;
     values := map (column_values df) (seq 0 (size (columns df))) |}.

(** [df.copy()]: values are immutable here, a copy is the frame itself. *)
Definition copy (df : DataFrame) : DataFrame := df.

(** The [axis] argument of [multi_summary] and [DataFrame.apply]. *)
Inductive axis_arg : Type :=
| AxNone
| AxInt (z : Z)
| AxStr (s : string).

(** [str(axis)]. *)
Definition axis_text (a : axis_arg) : string :=
  match a with
  | AxNone => "None"
  | AxInt z => NilZero.string_of_int (Z.to_int z)
  | AxStr s => s
  end.

(** The exception of [DataFrame._get_axis_number] for an axis it does not
    know: [ValueError(f"No axis named {axis} for object type DataFrame")]. *)
Definition no_axis_named (a : axis_arg) : exn :=
  ValueError (String.append "No axis named "
                (String.append (axis_text a) " for object type DataFrame")).

(** [DataFrame._get_axis_number]: the axis spellings pandas accepts. *)
Definition axis_number (a : axis_arg) : result nat :=
  match a with
  | AxInt 0 => Ok 0%nat
  | AxInt 1 => Ok 1%nat
  | AxStr s =>
      if (s =? "index") || (s =? "rows") then Ok 0%nat
      else if s =? "columns" then Ok 1%nat
      else Raise (no_axis_named a)
  | _ => Raise (no_axis_named a)
  end.

(** A number: an integer or a float, NaN included. *)
Definition is_number (v : value) : bool :=
  match v with
  | VInt _ | VNaN => true
  | _ => false
  end.

Definition is_string (v : value) : bool :=
  match v with
  | VStr _ => true
  | _ => false
  end.

(** [None] as a float column stores it. *)
Definition none_to_nan (v : value) : value :=
  match v with
  | VNone => VNaN
  | _ => v
  end.

(** A list of scalars that the constructors turn into a float column: it
    holds a number and no string. *)
Definition holds_numbers (vals : list value) : bool :=
  existsb is_number vals && negb (existsb is_string vals).

(** The dtype inference that the [Series] and [DataFrame] constructors run
    on a list of scalars ([lib.maybe_convert_objects]): a list that holds a
    number and no string becomes a float column, in which [None] is stored
    as NaN; any other list is kept as an object column, [None] included. *)
Definition maybe_convert_objects (vals : list value) : list value :=
  if holds_numbers vals then map none_to_nan vals else vals.

(** [df.apply(f, axis=axis)] for an aggregation [f]: the axis is resolved
    first, then [f] gives one scalar per column (axis 0) or per row
    (axis 1), and the scalars are wrapped in a [Series] labelled by the
    other axis.  [f] is the function with the caller's keywords bound:
    the keywords [raw], [result_type] and [args], which [DataFrame.apply]
    keeps for itself, are taken not to be among them. *)
Definition apply (f : list value -> value) (axis : axis_arg)
           (df : DataFrame) : result Series :=
  rbind (axis_number axis) (fun n =>
    match n with
    | O => Ok {| s_index := columns df;
                 s_values := maybe_convert_objects
                               (map (fun it => f (snd it)) (iteritems df)) |}
    | _ => Ok {| s_index := index df;
                 s_values := maybe_convert_objects
                               (map (fun it => f (snd it)) (iterrows df)) |}
    end).

(** [series.to_frame(t)]: a one-column frame titled [t]. *)
Definition to_frame (t : label) (s : Series) : DataFrame :=
  {| index := s_index s;
     columns := {| labels := [t]; names := [None] |};
     values := map (fun v => [v]) (s_values s) |}.

(** [pd.DataFrame(data={t: vals}, index=ix)]: one column titled [t], whose
    dtype is inferred from [vals]. *)
Definition from_column (t : label) (vals : list value) (ix : Index)
  : DataFrame :=
  {| index := ix;
     columns := {| labels := [t]; names := [None] |};
     values := map (fun v => [v]) (maybe_convert_objects vals) |}.

(** *** Concatenation *)

Fixpoint nodupb (xs : list label) : bool :=
  match xs with
  | [] => true
  | x :: r => negb (mem x r) && nodupb r
  end.

(** Union of label lists in order of first appearance. *)
Fixpoint union_labels (acc : list label) (ls : list label) : list label :=
  match ls with
  | [] => acc
  | x :: r => union_labels (if mem x acc then acc else acc ++ [x]) r
  end.

Definition all_equal (l : list label) (ls : list (list label)) : bool :=
  forallb (list_eqb l) ls.

(** Position of the first occurrence of a label. *)
Fixpoint find_pos (x : label) (xs : list label) : option nat :=
  match xs with
  | [] => None
  | y :: r => if String.eqb x y then Some 0%nat
              else option_map S (find_pos x r)
  end.

(** All positions of a label (pandas' [get_indexer_non_unique]). *)
Fixpoint positions_from (n : nat) (x : label) (xs : list label) : list nat :=
  match xs with
  | [] => []
  | y :: r => if String.eqb x y then n :: positions_from (S n) x r
              else positions_from (S n) x r
  end.
Definition positions := positions_from 0.

Definition name_eqb (a b : option string) : bool :=
  match a, b with
  | None, None => true
  | Some x, Some y => String.eqb x y
  | _, _ => false
  end.

Fixpoint names_eqb (n m : list (option string)) : bool :=
  match n, m with
  | [], [] => true
  | a :: n', b :: m' => name_eqb a b && names_eqb n' m'
  | _, _ => false
  end.

(** Level names of a combined axis: kept when unanimous, else dropped. *)
Definition unanimous_names (n : list (option string))
           (ns : list (list (option string))) : list (option string) :=
  if forallb (names_eqb n) ns then n else map (fun _ => None) n.

(** Realign one row of cells from the labels [old] to the labels [new];
    labels absent from [old] give NaN. *)
Definition reindex_row (old new : list label) (row : list value)
  : list value :=
  map (fun c => match find_pos c old with
                | Some j => nth j row VNaN
                | None => VNaN
                end) new.

(** The labels of the axis shared by the frames of a [concat] (outer
    join).  Identical label lists are taken as they are; otherwise the
    union is formed, which needs every list to be duplicate free. *)
Definition combined_labels (ls : list (list label))
  : result (list label) :=
  match ls with
  | [] => Raise (ValueError "No objects to concatenate")
  | l :: rest =>
      if all_equal l rest then Ok l
      else if forallb nodupb ls then Ok (union_labels [] (List.concat ls))
      else Raise (InvalidIndexError
                    "Reindexing only valid with uniquely valued Index objects")
  end.

Definition aligned (ls : list (list label)) : bool :=
  match ls with
  | [] => true
  | l :: rest => all_equal l rest
  end.

(** [pd.concat(dfs, axis=0)]: the rows of the frames one below the other,
    columns aligned by label. *)
Definition concat_rows (dfs : list DataFrame) : result DataFrame :=
  let cols := map (fun df => labels (columns df)) dfs in
  rbind (combined_labels cols) (fun u =>
    Ok {| index :=
            {| labels := flat_map (fun df => labels (index df)) dfs;
               names := match dfs with
                        | [] => []
                        | d :: r => unanimous_names (names (index d))
                                      (map (fun df => names (index df)) r)
                        end |};
          columns :=
            {| labels := u;
               names := match dfs with
                        | [] => []
                        | d :: r => unanimous_names (names (columns d))
                                      (map (fun df => names (columns df)) r)
                        end |};
          values :=
            if aligned cols then flat_map values dfs
            else flat_map (fun df =>
                             map (reindex_row (labels (columns df)) u)
                                 (values df)) dfs |}).

(** The row of frame [df] that goes to position [i] / label [r] of the
    combined row index. *)
Definition row_for (is_aligned : bool) (i : nat) (r : label)
           (df : DataFrame) : list value :=
  let blank := repeat VNaN (size (columns df)) in
  if is_aligned then nth i (values df) blank
  else match find_pos r (labels (index df)) with
       | Some k => nth k (values df) blank
       | None => blank
       end.

(** [pd.concat(dfs, axis=1)]: the columns of the frames side by side,
    rows aligned by label. *)
Definition concat_cols (dfs : list DataFrame) : result DataFrame :=
  let idxs := map (fun df => labels (index df)) dfs in
  rbind (combined_labels idxs) (fun u =>
    Ok {| index :=
            {| labels := u;
               names := match dfs with
                        | [] => []
                        | d :: r => unanimous_names (names (index d))
                                      (map (fun df => names (index df)) r)
                        end |};
          columns :=
            {| labels := flat_map (fun df => labels (columns df)) dfs;
               names := match dfs with
                        | [] => []
                        | d :: r => unanimous_names (names (columns d))
                                      (map (fun df => names (columns df)) r)
                        end |};
          values :=
            map (fun ir => flat_map (row_for (aligned idxs) (fst ir) (snd ir))
                                    dfs)
                (combine (seq 0 (length u)) u) |}).

(** [pd.concat(dfs, axis=axis, ignore_index=False)]. *)
Definition concat (dfs : list DataFrame) (axis : nat) : result DataFrame :=
  match axis with
  | O => concat_rows dfs
  | _ => concat_cols dfs
  end.

(** *** Selection and assignment by label *)

(** [df[key]] for a list of column labels: every column carrying a
    requested label, once per request; a missing label is a [KeyError]. *)
Definition getitem (df : DataFrame) (key : list label)
  : result DataFrame :=
  if forallb (fun k => contains_label k (columns df)) key then
    let idx := flat_map (fun k => positions k (labels (columns df))) key in
    Ok {| index := index df;
          columns := {| labels := map (fun j => nth j (labels (columns df)) "")
                                      idx;
                        names := names (columns df) |};
          values := map (fun row => map (fun j => nth j row VNaN) idx)
                        (values df) |}
  else Raise (KeyError "not in index").

(** Apply [f] to the cells selected by a mask, leaving the others. *)
Fixpoint map_where {A} (mask : list bool) (f : A -> A) (xs : list A)
  : list A :=
  match xs, mask with
  | x :: xs', b :: mask' =>
      (if b then f x else x) :: map_where mask' f xs'
  | _, _ => xs
  end.

(** [df.loc[r, c] = v]: every cell in a row labelled [r] and a column
    labelled [c] is set; a missing label enlarges the frame first. *)
Definition loc_set (df : DataFrame) (r c : label) (v : value)
  : DataFrame :=
  let df1 :=
    if contains_label c (columns df) then df
    else {| index := index df;
            columns := {| labels := labels (columns df) ++ [c];
                          names := names (columns df) |};
            values := map (fun row => row ++ [VNaN]) (values df) |} in
  let df2 :=
    if contains_label r (index df1) then df1
    else {| index := {| labels := labels (index df1) ++ [r];
                        names := names (index df1) |};
            columns := columns df1;
            values := values df1
                      ++ [repeat VNaN (size (columns df1))] |} in
  let rmask := map (String.eqb r) (labels (index df2)) in
  let cmask := map (String.eqb c) (labels (columns df2)) in
  {| index := index df2;
     columns := columns df2;
     values := map_where rmask (map_where cmask (fun _ => v))
                         (values df2) |}.

(** The label selections on which an assignment through [.loc] is the
    cell-by-cell update modelled below: the selection lists no label twice
    and the axis has no repeated label. *)
Definition unique_selection (key axis_labels : list label) : bool :=
  nodupb key && nodupb axis_labels.

(** [df.loc[:, subset] = df.loc[:, subset].applymap(f)] for a
    [unique_selection]: [f] on the cells of the columns listed in
    [subset], the other cells kept.  With a label listed twice pandas does
    something else, which depends on its version and on the dtypes (it may
    raise [ValueError] and leave a column added); that case is not
    modelled, and the function below is the cell-by-cell update there
    too. *)
Definition applymap_columns (f : value -> value) (subset : list label)
           (df : DataFrame) : DataFrame :=
  let cmask := map (fun c => mem c subset) (labels (columns df)) in
  {| index := index df;
     columns := columns df;
     values := map (map_where cmask f) (values df) |}.

(** [df.loc[subset, :] = df.loc[subset, :].applymap(f)] for a
    [unique_selection]: [f] on the cells of the rows listed in [subset].
    A label listed twice (where pandas may overwrite another row) is not
    modelled, as for the columns. *)
Definition applymap_rows (f : value -> value) (subset : list label)
           (df : DataFrame) : DataFrame :=
  let rmask := map (fun r => mem r subset) (labels (index df)) in
  {| index := index df;
     columns := columns df;
     values := map_where rmask (map f) (values df) |}.

(** [pd.isnull] on a scalar. *)
Definition isnull (v : value) : bool :=
  match v with
  | VNone | VNaN => true
  | _ => false
  end.

(** [df.loc[df[col].isnull(), col] = v] for a column label [col] that the
    table carries once: [df[col]] is then a [Series] and the assignment
    rewrites the null cells of that column.  (With a repeated label
    [df[col]] is a [DataFrame] and the statement is another one; that case
    is not modelled.) *)
Definition fillnull_column (col : label) (v : value) (df : DataFrame)
  : DataFrame :=
  let cmask := map (String.eqb col) (labels (columns df)) in
  {| index := index df;
     columns := columns df;
     values := map (map_where cmask (fun x => if isnull x then v else x))
                   (values df) |}.

(** The cell at row position [i] and column position [j], if any. *)
Definition cell (df : DataFrame) (i j : nat) : option value :=
  match nth_error (values df) i with
  | Some row => nth_error row j
  | None => None
  end.

End pd.

(** ** The instance state *)

(** [Formatter = namedtuple("Formatter", "subset, exclude, axis, function")].
    [axis] is whatever string the caller passed. *)
Record Formatter : Type := mkFormatter {
  subset : option (list label);
  exclude : option (list label);
  axis : string;
  function : value -> value
}.

(** An entry of [table_styles]: [{'selector': ..., 'props': ...}]. *)
Record Style : Type := mkStyle {
  selector : string;
  props : list (string * string)
}.

(** A cell of the render tree: the keys ['class'], ['value'] and
    ['display_value'] of the dictionaries built by the underlying Styler. *)
Record Cell : Type := mkCell {
  cell_class : string;
  cell_value : value;
  display_value : value
}.

(** The render tree returned by [Styler._translate]: the keys ['head'],
    ['body'] and ['table_styles']. *)
Record RenderTree : Type := mkRenderTree {
  head : list (list Cell);
  body : list (list Cell);
  styles : list Style
}.

(** The attributes of a [PrettyPandas] instance that the methods read or
    write.  [index] and [columns] are the attributes of the underlying
    Styler that [get_formatted_df] refreshes. *)
Record PrettyPandas : Type := mkPrettyPandas {
  data : pd.DataFrame;
  summary_rows : list pd.DataFrame;
  summary_cols : list pd.DataFrame;
  formatters : list Formatter;
  replace_all_nans_with : option value;
  table_styles : list Style;
  index : pd.Index;
  columns : pd.Index
}.

Definition set_data (df : pd.DataFrame) (self : PrettyPandas) : PrettyPandas :=
  {| data := df;
     summary_rows := summary_rows self;
     summary_cols := summary_cols self;
     formatters := formatters self;
     replace_all_nans_with := replace_all_nans_with self;
     table_styles := table_styles self;
     index := index self;
     columns := columns self |}.

(** ** Methods run in a state-and-exception monad over [self]

    A raised exception keeps the state reached so far: Python does not roll
    back the attributes assigned before the [raise]. *)

Definition M (A : Type) : Type := PrettyPandas -> result A * PrettyPandas.

Definition ret {A} (a : A) : M A := fun self => (Ok a, self).

Definition bind {A B} (m : M A) (k : A -> M B) : M B :=
  fun self =>
    match m self with
    | (Ok a, self') => k a self'
    | (Raise e, self') => (Raise e, self')
    end.

Definition raise {A} (e : exn) : M A := fun self => (Raise e, self).

(** Read an attribute of [self]. *)
Definition gets {A} (f : PrettyPandas -> A) : M A :=
  fun self => (Ok (f self), self).

(** Update [self]. *)
Definition modify (f : PrettyPandas -> PrettyPandas) : M unit :=
  fun self => (Ok tt, f self).

(** Run a library call, propagating its exception. *)
Definition lift {A} (r : result A) : M A :=
  fun self => (r, self).

Declare Scope monad_scope.
Delimit Scope monad_scope with monad.
Notation "x <- m ;; k" := (bind m (fun x => k))
  (at level 61, m at next level, right associativity) : monad_scope.
Notation "m ;;; k" := (bind m (fun _ => k))
  (at level 61, right associativity) : monad_scope.
Open Scope monad_scope.

(** ** Class constants *)

Definition DEFAULT_BACKGROUND : string := "#8883".
Definition DEFAULT_BORDER_COLOUR : string := "#c0c0c0".

Definition HEADER_PROPERTIES : list (string * string) :=
  [("background", DEFAULT_BACKGROUND); ("font-weight", "500")].

Definition SUMMARY_PROPERTIES : list (string * string) := HEADER_PROPERTIES.

Definition STYLES : list Style :=
  [ {| selector := "th"; props := HEADER_PROPERTIES |};
    {| selector := "tr"; props := [("background", "none")] |};
    {| selector := "td"; props := [("text-align", "right"); ("min-width", "3em")] |};
    {| selector := "*"; props := [("border-color", DEFAULT_BORDER_COLOUR)] |} ].

Definition _NO_INDEX_STYLES : list Style :=
  [ {| selector := ".row_heading"; props := [("display", "none")] |};
    {| selector := ".blank"; props := [("display", "none")] |} ].

(** [PrettyPandas.__init__]: [summary_rows or []] and so on; the underlying
    Styler keeps [data], its index and its columns. *)
Definition __init__ (df : pd.DataFrame)
           (summary_rows summary_cols : option (list pd.DataFrame))
           (formatters : option (list Formatter))
           (replace_all_nans_with : option value)
           (show_index : bool) (extra_styles : list Style) : PrettyPandas :=
  {| data := df;
     summary_rows := match summary_rows with Some l => l | None => [] end;
     summary_cols := match summary_cols with Some l => l | None => [] end;
     formatters := match formatters with Some l => l | None => [] end;
     replace_all_nans_with := replace_all_nans_with;
     table_styles := (STYLES ++ extra_styles)
                     ++ (if show_index then [] else _NO_INDEX_STYLES);
     index := pd.index df;
     columns := pd.columns df |}.

(** [_append_selector]. *)
Definition _append_selector (sel : string) (ps : list (string * string))
  : M unit :=
  modify (fun self =>
    {| data := data self;
       summary_rows := summary_rows self;
       summary_cols := summary_cols self;
       formatters := formatters self;
       replace_all_nans_with := replace_all_nans_with self;
       table_styles := table_styles self ++ [ {| selector := sel; props := ps |} ];
       index := index self;
       columns := columns self |}).

(** ** Summaries *)

(** An aggregation function, called as [f(vals, **kwargs)]. *)
Definition aggfun := kwargs -> list value -> value.

(** [axis == 0] and [axis == 1] on the argument as passed. *)
Definition axis_is (n : Z) (a : pd.axis_arg) : bool :=
  match a with
  | pd.AxInt z => Z.eqb z n
  | _ => false
  end.

(** The [for f, t in zip(funcs, titles)] loop of [multi_summary], building
    [output]. *)
Fixpoint summary_output (fts : list (aggfun * label)) (ax : pd.axis_arg)
         (sub : option (list label)) (kw : kwargs) (df : pd.DataFrame)
  : result (list pd.DataFrame) :=
  match fts with
  | [] => Ok []
  | (f, t) :: rest =>
      rbind
        match sub with
        | None => rbind (pd.apply (f kw) ax df)
                        (fun s => Ok (pd.to_frame t s))
        | Some sub =>
            let iter_fn := if axis_is 0 ax then pd.iteritems else pd.iterrows in
            let summary_names :=
              if axis_is 0 ax then pd.columns df else pd.index df in
            let summary_vals :=
              map (fun it => if mem (fst it) sub then f kw (snd it) else VNone)
                  (iter_fn df) in
            Ok (pd.from_column t summary_vals summary_names)
        end
        (fun o => rbind (summary_output rest ax sub kw df)
                        (fun os => Ok (o :: os)))
  end.

(** [self.summary_rows += rows]. *)
Definition push_summary_rows (rows : list pd.DataFrame) (self : PrettyPandas)
  : PrettyPandas :=
  {| data := data self;
     summary_rows := summary_rows self ++ rows;
     summary_cols := summary_cols self;
     formatters := formatters self;
     replace_all_nans_with := replace_all_nans_with self;
     table_styles := table_styles self;
     index := index self;
     columns := columns self |}.

(** [self.summary_cols += cols]. *)
Definition push_summary_cols (cols : list pd.DataFrame) (self : PrettyPandas)
  : PrettyPandas :=
  {| data := data self;
     summary_rows := summary_rows self;
     summary_cols := summary_cols self ++ cols;
     formatters := formatters self;
     replace_all_nans_with := replace_all_nans_with self;
     table_styles := table_styles self;
     index := index self;
     columns := columns self |}.

Definition add_summary_rows (rows : list pd.DataFrame) : M unit :=
  modify (push_summary_rows rows).

Definition add_summary_cols (cols : list pd.DataFrame) : M unit :=
  modify (push_summary_cols cols).

(** The body of [multi_summary] below the [axis is None] test. *)
Definition multi_summary_axis (funcs : list aggfun) (titles : list label)
           (ax : pd.axis_arg) (sub excl : option (list label)) (kw : kwargs)
  : M unit :=
  df <- gets data ;;
  let summary_names :=
    if axis_is 0 ax then pd.columns df else pd.index df in
  let sub :=
    match excl, sub with
    | Some ex, None =>
        Some (filter (fun n => negb (mem n ex)) (pd.labels summary_names))
    | _, _ => sub
    end in
  output <- lift (summary_output (combine funcs titles) ax sub kw df) ;;
  if axis_is 0 ax then add_summary_rows (map pd.T output)
  else if axis_is 1 ax then add_summary_cols output
  else
    (* ValueError("Invalid axis selected. Can only use 0, 1, or None.")
       is built here but never raised *)
    ret tt.

(** [multi_summary(funcs, titles, axis, subset, exclude, **kwargs)].  With
    [axis=None] the method calls itself with [axis=0] and then [axis=1],
    forwarding [funcs], [titles] and [**kwargs] only, so both calls run with
    the defaults [subset=None] and [exclude=None]. *)
Definition multi_summary (funcs : list aggfun) (titles : list label)
           (ax : pd.axis_arg) (sub excl : option (list label)) (kw : kwargs)
  : M unit :=
  match ax with
  | pd.AxNone =>
      multi_summary_axis funcs titles (pd.AxInt 0) None None kw ;;;
      multi_summary_axis funcs titles (pd.AxInt 1) None None kw
  | _ => multi_summary_axis funcs titles ax sub excl kw
  end.

(** [summary(func, title, axis, **kwargs)] returns
    [self.multi_summary([func], [title], axis, **kwargs)].  Python binds the
    keywords [subset] and [exclude] found in [**kwargs] to the parameters of
    [multi_summary] of that name: they are the arguments [sub] and [excl]
    here, and [kw] is the rest, which reaches the aggregation function. *)
Definition summary (func : aggfun) (title : label) (ax : pd.axis_arg)
           (sub excl : option (list label)) (kw : kwargs) : M unit :=
  multi_summary [func] [title] ax sub excl kw.

(** The aggregation functions of numpy that the shortcuts pass on. *)
Record numpy : Type := mkNumpy {
  numpy_sum : aggfun;
  numpy_average : aggfun;
  numpy_median : aggfun;
  numpy_max : aggfun;
  numpy_min : aggfun
}.

(** A parameter with a default value: [None] when the caller leaves it
    out. *)
Definition or_default {A} (given : option A) (default : A) : A :=
  match given with
  | Some a => a
  | None => default
  end.

(** The shortcuts [total], [average], [median], [max] and [min]: each
    returns [self.summary(f, title, **kwargs)].  A keyword [axis] in
    [**kwargs] binds the [axis] parameter of [summary], whose default is
    [0]; [title] has the default given in the signature. *)
Definition total (np : numpy) (title : option label)
           (ax : option pd.axis_arg) (sub excl : option (list label))
           (kw : kwargs) : M unit :=
  summary (numpy_sum np) (or_default title "Total")
          (or_default ax (pd.AxInt 0)) sub excl kw.




Definition min (np : numpy) (title : option label)
           (ax : option pd.axis_arg) (sub excl : option (list label))
           (kw : kwargs) : M unit :=
  summary (numpy_min np) (or_default title "Minimum")
          (or_default ax (pd.AxInt 0)) sub excl kw.

(** ** Formatters *)

Definition has_key (k : string) (kw : kwargs) : bool :=
  existsb (fun p => String.eqb k (fst p)) kw.

(** [_format_cells(func, subset, exclude, axis, **kwargs)]: registers the
    closure [fn] that calls [func] with the keyword arguments bound. *)
Definition _format_cells (func : kwargs -> value -> value)
           (sub excl : option (list label)) (ax : string) (kw : kwargs)
  : M unit :=
  modify (fun self =>
    let kw :=
      match replace_all_nans_with self with
      | Some v => if has_key "replace_nan_with" kw then kw
                  else kw ++ [("replace_nan_with", v)]
      | None => kw
      end in
    {| data := data self;
       summary_rows := summary_rows self;
       summary_cols := summary_cols self;
       formatters := formatters self
                     ++ [ {| subset := sub; exclude := excl; axis := ax;
                             function := func kw |} ];
       replace_all_nans_with := replace_all_nans_with self;
       table_styles := table_styles self;
       index := index self;
       columns := columns self |}).

(** The index a formatter works on, or the [ValueError] of the loop. *)
Definition formatter_index (ax : string) (df : pd.DataFrame)
  : result pd.Index :=
  if String.eqb ax "columns" then Ok (pd.columns df)
  else if String.eqb ax "rows" then Ok (pd.index df)
  else Raise (ValueError "axis must be one of 'columns' or 'rows'").

(** One iteration of the loop of [_apply_formatters] on the working table. *)
Definition apply_formatter (fm : Formatter) (df : pd.DataFrame)
  : result pd.DataFrame :=
  rbind (formatter_index (axis fm) df) (fun ix =>
    let go (sub : list label) :=
      let sub := match exclude fm with
                 | Some ex => filter (fun s => negb (mem s ex)) sub
                 | None => sub
                 end in
      if String.eqb (axis fm) "columns"
      then Ok (pd.applymap_columns (function fm) sub df)
      else Ok (pd.applymap_rows (function fm) sub df) in
    match subset fm with
    | None => go (pd.labels ix)
    | Some sub =>
        match filter (fun s => pd.contains_label s ix) sub with
        | [] => Ok df (* continue *)
        | sub => go sub
        end
    end).

Fixpoint apply_formatters_loop (fms : list Formatter) : M unit :=
  match fms with
  | [] => ret tt
  | fm :: rest =>
      df <- gets data ;;
      df' <- lift (apply_formatter fm df) ;;
      modify (set_data df') ;;;
      apply_formatters_loop rest
  end.

(** [_apply_formatters]. *)
Definition _apply_formatters : M unit :=
  fms <- gets formatters ;;
  apply_formatters_loop fms.

(** ** Merging the summaries *)

(** A [for x in xs:] loop whose body acts on [self]. *)
Fixpoint for_each {A} (xs : list A) (body : A -> M unit) : M unit :=
  match xs with
  | [] => ret tt
  | x :: rest => body x ;;; for_each rest body
  end.

(** [enumerate(xs)]. *)
Definition enumerate {A} (xs : list A) : list (nat * A) :=
  combine (seq 0 (length xs)) xs.

(** [ix[0]]. *)
Definition first_label (ix : pd.Index) : result label :=
  match pd.labels ix with
  | [] => Raise (IndexError "index 0 is out of bounds for axis 0 with size 0")
  | t :: _ => Ok t
  end.

(** [[ax(series)[0] for series in frames]]. *)
Fixpoint first_labels (ax : pd.DataFrame -> pd.Index)
         (frames : list pd.DataFrame) : result (list label) :=
  match frames with
  | [] => Ok []
  | d :: rest =>
      rbind (first_label (ax d)) (fun t =>
        rbind (first_labels ax rest) (fun ts => Ok (t :: ts)))
  end.

(** [df.index.names = index_names; df.columns.names = columns_names]. *)
Definition set_names (index_names columns_names : list (option string))
           (df : pd.DataFrame) : pd.DataFrame :=
  {| pd.index := {| pd.labels := pd.labels (pd.index df);
                    pd.names := index_names |};
     pd.columns := {| pd.labels := pd.labels (pd.columns df);
                      pd.names := columns_names |};
     pd.values := pd.values df |}.

(** [_apply_summaries]. *)
Definition _apply_summaries : M unit :=
  df <- gets data ;;
  scols <- gets summary_cols ;;
  srows <- gets summary_rows ;;
  let colnames := pd.labels (pd.columns df) in
  summary_colnames <- lift (first_labels pd.columns scols) ;;
  summary_rownames <- lift (first_labels pd.index srows) ;;
  (* preserve index and columns names *)
  let index_names := pd.names (pd.index df) in
  let columns_names := pd.names (pd.columns df) in
  let '(rows, cols) := pd.shape df in
  let ix_cols := length index_names in
  (* add summary rows and columns *)
  df1 <- lift (pd.concat (df :: scols) 1) ;;
  modify (set_data df1) ;;;
  df2 <- lift (pd.concat (df1 :: srows) 0) ;;
  modify (set_data df2) ;;;
  (* update CSS styles *)
  for_each (enumerate srows) (fun ir =>
    let index := (rows + fst ir + 1)%nat in
    _append_selector
      (String.append "tr:nth-child(" (String.append (string_of_nat index) ")"))
      SUMMARY_PROPERTIES) ;;;
  for_each (enumerate scols) (fun ic =>
    let index := (cols + ix_cols + fst ic + 1)%nat in
    _append_selector
      (String.append "td:nth-child(" (String.append (string_of_nat index) ")"))
      SUMMARY_PROPERTIES) ;;;
  (* sort column names *)
  df3 <- lift (pd.getitem df2 (colnames ++ summary_colnames)) ;;
  modify (set_data df3) ;;;
  (* fix shared summary cells to be empty *)
  for_each (list_prod summary_rownames summary_colnames) (fun rc =>
    cur <- gets data ;;
    modify (set_data (pd.loc_set cur (fst rc) (snd rc) (VStr "")))) ;;;
  (* put back the index and columns names *)
  cur <- gets data ;;
  modify (set_data (set_names index_names columns_names cur)).

(** ** The render pipeline *)

(** [isinstance(v, Number) and np.isnan(v)]. *)
Definition is_nan_number (v : value) : bool :=
  match v with
  | VNaN => true
  | _ => false
  end.

(** The [for col0, col1 in zip(head[0], head[1])] loop of [_translate]:
    [Some merged] when the loop ends with [merge_headers] still true, [None]
    when it breaks. *)
Fixpoint merge_header_rows (row0 row1 : list Cell) : option (list Cell) :=
  match row0, row1 with
  | col0 :: rest0, col1 :: rest1 =>
      if negb (contains "blank" (cell_class col0))
         && contains "blank" (cell_class col1)
      then option_map (cons col0) (merge_header_rows rest0 rest1)
      else if contains "blank" (cell_class col0)
              && negb (contains "blank" (cell_class col1))
      then option_map (cons col1) (merge_header_rows rest0 rest1)
      else None
  | _, _ => Some []
  end.

(** The header part of [_translate]. *)
Definition merge_head (h : list (list Cell)) : list (list Cell) :=
  match h with
  | [row0; row1] =>
      match merge_header_rows row0 row1 with
      | Some merged => [merged]
      | None => h
      end
  | _ => h
  end.

(** The null replacement on the body of the render tree. *)
Definition replace_nan_display (repl : option value)
           (rows : list (list Cell)) : list (list Cell) :=
  match repl with
  | Some x =>
      map (map (fun c =>
                  if is_nan_number (cell_value c)
                  then {| cell_class := cell_class c;
                          cell_value := cell_value c;
                          display_value := x |}
                  else c)) rows
  | None => rows
  end.

(** The null replacement on the formatted table:
    [for col in formatted_df: formatted_df.loc[formatted_df[col].isnull(), col] = x]. *)
Definition replace_nulls (repl : option value) (df : pd.DataFrame)
  : pd.DataFrame :=
  match repl with
  | Some x =>
      fold_left (fun acc col => pd.fillnull_column col x acc)
                (pd.labels (pd.columns df)) df
  | None => df
  end.

Section Render.

(** [Styler._translate] of the underlying pandas class: it reads the
    table, the refreshed [index] and [columns] attributes and the style
    list of the instance, and builds the render tree. *)
Variable Styler_translate :
  pd.DataFrame -> pd.Index -> pd.Index -> list Style -> RenderTree.

(** The statements of [get_formatted_df] down to the restoration of
    [self.data]: the value of [result] and of [formatted_df]. *)
Definition render_pass : M (RenderTree * pd.DataFrame) :=
  saved <- gets (fun self => pd.copy (data self)) ;;
  _apply_summaries ;;;
  _apply_formatters ;;;
  formatted_df <- gets data ;;
  modify (fun self =>
    {| data := data self;
       summary_rows := summary_rows self;
       summary_cols := summary_cols self;
       formatters := formatters self;
       replace_all_nans_with := replace_all_nans_with self;
       table_styles := table_styles self;
       index := pd.index (data self);
       columns := pd.columns (data self) |}) ;;;
  result <- gets (fun self =>
    Styler_translate (data self) (index self) (columns self)
                     (table_styles self)) ;;
  (* revert changes to inner data *)
  modify (set_data saved) ;;;
  ret (result, formatted_df).

(** [get_formatted_df(as_html)]: the render tree when [as_html], the
    formatted table otherwise. *)
Definition get_formatted_df (as_html : bool)
  : M (RenderTree + pd.DataFrame) :=
  rf <- render_pass ;;
  if as_html then ret (inl (fst rf))
  else
    repl <- gets replace_all_nans_with ;;
    ret (inr (replace_nulls repl (snd rf))).

(** [_translate]: [result = self.get_formatted_df(as_html=True)], then the
    header merge and the null replacement on the tree. *)
Definition _translate : M RenderTree :=
  rf <- render_pass ;;
  let result := fst rf in
  repl <- gets replace_all_nans_with ;;
  ret {| head := merge_head (head result);
         body := replace_nan_display repl (body result);
         styles := styles result |}.

End Render.

(** ** A rendering delegate and sample data for the examples *)

(** A delegate in the manner of pandas' Styler for a table with one level
    of column labels: a header row (a blank cell, then the column
    headings), a second header row when the row index is named (the index
    name, then blanks), one body row per table row, and the style list. *)
Definition example_translate (df : pd.DataFrame) (ix cols : pd.Index)
           (sty : list Style) : RenderTree :=
  let blank := {| cell_class := "blank"; cell_value := VStr "";
                  display_value := VStr "" |} in
  let heading (c : label) :=
    {| cell_class := "col_heading level0"; cell_value := VStr c;
       display_value := VStr c |} in
  let row0 := blank :: map heading (pd.labels cols) in
  let row1 :=
    match pd.names ix with
    | [Some n] =>
        [ {| cell_class := "index_name level0"; cell_value := VStr n;
             display_value := VStr n |} :: map (fun _ => blank) (pd.labels cols) ]
    | _ => []
    end in
  {| head := row0 :: row1;
     body := map (fun rv =>
                    {| cell_class := "row_heading level0";
                       cell_value := VStr (fst rv);
                       display_value := VStr (fst rv) |}
                    :: map (fun v => {| cell_class := "data"; cell_value := v;
                                        display_value := v |}) (snd rv))
                 (combine (pd.labels ix) (pd.values df));
     styles := sty |}.

(** The value of a 64-bit signed integer after wrap-around. *)
Definition int64 (z : Z) : Z :=
  ((z + 2 ^ 63) mod 2 ^ 64 - 2 ^ 63)%Z.

(** A cell of an [int64] column. *)
Definition is_int64 (v : value) : bool :=
  match v with
  | VInt z => (- 2 ^ 63 <=? z)%Z && (z <? 2 ^ 63)%Z
  | _ => false
  end.

(** [numpy.sum] on a column or row of integers: it goes to [Series.sum],
    which skips the null cells; on an [int64] column the sum wraps
    around.  Strings are not modelled. *)
Definition np_sum : aggfun :=
  fun _ vals =>
    let total :=
      fold_right (fun v acc => match v with VInt z => (z + acc)%Z | _ => acc end)
                 0%Z vals in
    VInt (if forallb is_int64 vals then int64 total else total).

(** A value-to-string formatter that marks the cells it touches. *)
Definition as_marked : kwargs -> value -> value :=
  fun _ v =>
    match v with
    | VInt z => VStr (String.append (string_of_nat (Z.to_nat z)) "%")
    | _ => v
    end.

(** The 2x2 table of the examples: columns [A], [B]; rows [x], [y]. *)
Definition sample_df : pd.DataFrame :=
  {| pd.index := {| pd.labels := ["x"; "y"]; pd.names := [None] |};
     pd.columns := {| pd.labels := ["A"; "B"]; pd.names := [None] |};
     pd.values := [[VInt 1; VInt 2]; [VInt 3; VInt 4]] |}.

Definition sample : PrettyPandas :=
  __init__ sample_df None None None None true [].

(** Run a chain of fluent calls and keep the instance. *)
Definition exec {A} (m : M A) (self : PrettyPandas) : PrettyPandas :=
  snd (m self).

(** ** Vocabulary of the properties *)

(** Unfold the monad operations in the goal and the hypotheses. *)
Ltac unfold_monad :=
  unfold bind, ret, raise, gets, modify, lift in *.

(** The list [summary_vals] that [multi_summary] computes for one function
    when a subset is in force: [f] on the items whose label is in the
    subset, [None] for the others. *)
Definition summary_vals (f : aggfun) (kw : kwargs) (sub : list label)
           (items : list (label * list value)) : list value :=
  map (fun it => if mem (fst it) sub then f kw (snd it) else VNone) items.


(** The axis test of [_apply_formatters]: ["columns"] or ["rows"]. *)
Definition valid_axis (ax : string) : bool :=
  String.eqb ax "columns" || String.eqb ax "rows".

(** ['blank' in col['class']]. *)
Definition is_blank (c : Cell) : bool := contains "blank" (cell_class c).

(** The cell kept at one position of the merged header row. *)
Definition pick_non_blank (cc : Cell * Cell) : Cell :=
  if is_blank (fst cc) then snd cc else fst cc.

(** A position is mergeable when exactly one of its two cells is blank. *)
Definition mergeable (cc : Cell * Cell) : bool :=
  xorb (is_blank (fst cc)) (is_blank (snd cc)).

(** The resolved target label set of a formatter on a table: the subset
    restricted to the labels of the axis (the whole axis when no subset is
    given), minus the excluded labels. *)
Definition target_labels (fm : Formatter) (df : pd.DataFrame)
  : result (list label) :=
  rbind (formatter_index (axis fm) df) (fun ix =>
    let base := match subset fm with
                | None => pd.labels ix
                | Some sub => filter (fun s => pd.contains_label s ix) sub
                end in
    Ok match exclude fm with
       | Some ex => filter (fun s => negb (mem s ex)) base
       | None => base
       end).

(** The labels of the axis a formatter is registered on, given the row
    labels and the column labels of the table. *)
Definition axis_labels (fm : Formatter) (rows cols : list label)
  : list label :=
  if String.eqb (axis fm) "columns" then cols else rows.

(** A formatter whose assignment through [.loc] the model covers, on a
    table with the row labels [rows] and the column labels [cols]: its
    axis is ["columns"] or ["rows"], the labels of that axis are pairwise
    distinct, and its subset, if given, lists no label twice. *)
Definition plain_formatter (fm : Formatter) (rows cols : list label) : bool :=
  valid_axis (axis fm)
  && pd.nodupb (axis_labels fm rows cols)
  && match subset fm with
     | Some sub => pd.nodupb sub
     | None => true
     end.

(** The instance with another list of registered formatters. *)
Definition set_formatters (fms : list Formatter) (self : PrettyPandas)
  : PrettyPandas :=
  {| data := data self;
     summary_rows := summary_rows self;
     summary_cols := summary_cols self;
     formatters := fms;
     replace_all_nans_with := replace_all_nans_with self;
     table_styles := table_styles self;
     index := index self;
     columns := columns self |}.

(** The refresh of the Styler attributes in [get_formatted_df]. *)
Definition refresh_axes (self : PrettyPandas) : PrettyPandas :=
  {| data := data self;
     summary_rows := summary_rows self;
     summary_cols := summary_cols self;
     formatters := formatters self;
     replace_all_nans_with := replace_all_nans_with self;
     table_styles := table_styles self;
     index := pd.index (data self);
     columns := pd.columns (data self) |}.

(** A computation that neither reads nor writes [self.formatters]. *)
Definition ignores_formatters {A} (m : M A) : Prop :=
  forall fms self,
    m (set_formatters fms self)
    = (fst (m self), set_formatters fms (snd (m self))).

(** The instance with selectors appended to its style list. *)
Definition add_styles (sty : list Style) (self : PrettyPandas)
  : PrettyPandas :=
  {| data := data self;
     summary_rows := summary_rows self;
     summary_cols := summary_cols self;
     formatters := formatters self;
     replace_all_nans_with := replace_all_nans_with self;
     table_styles := table_styles self ++ sty;
     index := index self;
     columns := columns self |}.

(** The selectors appended by one run of [_apply_summaries]. *)
Definition summary_selectors (self : PrettyPandas) : list Style :=
  let '(rows, cols) := pd.shape (data self) in
  let ix_cols := length (pd.names (pd.index (data self))) in
  map (fun ir : nat * pd.DataFrame =>
         {| selector :=
              String.append "tr:nth-child("
                (String.append (string_of_nat (rows + fst ir + 1)) ")");
            props := SUMMARY_PROPERTIES |})
      (enumerate (summary_rows self))
  ++ map (fun ic : nat * pd.DataFrame =>
            {| selector :=
                 String.append "td:nth-child("
                   (String.append (string_of_nat (cols + ix_cols + fst ic + 1))
                                  ")");
               props := SUMMARY_PROPERTIES |})
         (enumerate (summary_cols self)).

(** The loop that empties the cells shared by a summary row and a summary
    column, as a function of the table. *)
Definition blank_corners (pairs : list (label * label)) (df : pd.DataFrame)
  : pd.DataFrame :=
  fold_left (fun d rc => pd.loc_set d (fst rc) (snd rc) (VStr "")) pairs df.

(** One call of [multi_summary]. *)
Record summary_call : Type := mkCall {
  c_funcs : list aggfun;
  c_titles : list label;
  c_axis : pd.axis_arg;
  c_subset : option (list label);
  c_exclude : option (list label);
  c_kwargs : kwargs
}.

(** Run one recorded call on the instance. *)
Definition call (c : summary_call) : M unit :=
  multi_summary (c_funcs c) (c_titles c) (c_axis c) (c_subset c)
                (c_exclude c) (c_kwargs c).

(** A chain [self.multi_summary(...).multi_summary(...)...]. *)
Definition run_calls (calls : list summary_call) : M unit :=
  for_each calls call.

(** The titles one call uses: those of [zip(funcs, titles)]. *)
Definition call_titles (c : summary_call) : list label :=
  map snd (combine (c_funcs c) (c_titles c)).

(** [axis is None]. *)
Definition is_none (a : pd.axis_arg) : bool :=
  match a with
  | pd.AxNone => true
  | _ => false
  end.

(** The titles of the summary rows, respectively columns, that a chain of
    calls adds, in call order. *)
Definition added_row_titles (calls : list summary_call) : list label :=
  flat_map (fun c => if is_none (c_axis c) || axis_is 0 (c_axis c)
                     then call_titles c else []) calls.

Definition added_col_titles (calls : list summary_call) : list label :=
  flat_map (fun c => if is_none (c_axis c) || axis_is 1 (c_axis c)
                     then call_titles c else []) calls.

(** A summary column fits a table when it has the row index of the table
    and a single column; a summary row when it has the columns of the table
    and a single row. *)
Definition fits_cols (df f : pd.DataFrame) (t : label) : Prop :=
  pd.index f = pd.index df /\ pd.labels (pd.columns f) = [t].

Definition fits_rows (df f : pd.DataFrame) (t : label) : Prop :=
  pd.columns f = pd.columns df /\ pd.labels (pd.index f) = [t].

(** Two instances agree on the table and on the registrations; the style
    list and the refreshed Styler attributes may differ. *)
Definition same_registrations (s1 s2 : PrettyPandas) : Prop :=
  data s1 = data s2
  /\ summary_rows s1 = summary_rows s2
  /\ summary_cols s1 = summary_cols s2
  /\ formatters s1 = formatters s2
  /\ replace_all_nans_with s1 = replace_all_nans_with s2.

(** The formatted table of a render pass, or its exception. *)
Definition table_of (r : result (RenderTree * pd.DataFrame))
  : result pd.DataFrame :=
  match r with
  | Ok rf => Ok (snd rf)
  | Raise e => Raise e
  end.



(** * Properties *)

(** ** Generic facts about the monad and about lists *)

Lemma bind_ok {A B} (m : M A) (k : A -> M B) self a self' :
  m self = (Ok a, self') -> bind m k self = k a self'.
Proof. intros H; unfold bind; now rewrite H. Qed.

Lemma bind_raise {A B} (m : M A) (k : A -> M B) self e self' :
  m self = (Raise e, self') -> bind m k self = (Raise e, self').
Proof. intros H; unfold bind; now rewrite H. Qed.

Lemma mem_In x xs : mem x xs = true <-> In x xs.
Proof.
  unfold mem; rewrite existsb_exists; split.
  - intros (y & Hy & E). apply String.eqb_eq in E. now subst.
  - intros H. exists x. split; [assumption | apply String.eqb_refl].
Qed.

Lemma mem_false_not_In x xs : mem x xs = false <-> ~ In x xs.
Proof.
  rewrite <- mem_In. destruct (mem x xs); split; congruence.
Qed.

Lemma list_eqb_eq xs ys : list_eqb xs ys = true <-> xs = ys.
Proof.
  unfold list_eqb. destruct (list_eq_dec string_dec xs ys); split; congruence.
Qed.

Lemma list_eqb_refl xs : list_eqb xs xs = true.
Proof. now apply list_eqb_eq. Qed.

(** ** Building the summaries: the loop of [multi_summary] *)

(** With a subset the loop never calls [DataFrame.apply]: it cannot raise
    and yields one frame per (function, title) pair. *)
Lemma summary_output_subset fts ax sub kw df :
  exists output,
    summary_output fts ax (Some sub) kw df = Ok output
    /\ length output = length fts.
Proof.
  induction fts as [|[f t] rest (os & E & L)]; simpl.
  - now exists [].
  - rewrite E; simpl. eexists; split; [reflexivity | simpl; now rewrite L].
Qed.

Lemma axis_number_raise ax e :
  pd.axis_number ax = Raise e -> e = pd.no_axis_named ax.
Proof.
  unfold pd.axis_number. destruct ax as [|z|s]; try congruence.
  - destruct z as [|p|p]; try congruence.
    destruct p; congruence.
  - destruct ((s =? "index")%string || (s =? "rows")%string);
      [discriminate|].
    destruct (s =? "columns")%string; congruence.
Qed.

(** The only exception out of the loop is pandas' complaint about the axis. *)
Lemma summary_output_raise fts ax sub kw df e :
  summary_output fts ax sub kw df = Raise e ->
  e = pd.no_axis_named ax.
Proof.
  induction fts as [|[f t] rest IH]; simpl; [discriminate|].
  destruct sub as [sub|]; simpl.
  - destruct (summary_output rest ax (Some sub) kw df); simpl;
      [discriminate | intros [= <-]; now apply IH].
  - unfold pd.apply.
    destruct (pd.axis_number ax) as [n|e'] eqn:En; simpl.
    + destruct n; simpl;
        (destruct (summary_output rest ax None kw df); simpl;
         [discriminate | intros [= <-]; now apply IH]).
    + intros [= <-]. now apply axis_number_raise.
Qed.

(** [multi_summary] either returns or propagates the exception of the
    loop, with [self] as it was. *)
Lemma multi_summary_axis_raise funcs titles ax sub excl kw self e self' :
  multi_summary_axis funcs titles ax sub excl kw self = (Raise e, self') ->
  e = pd.no_axis_named ax /\ self' = self.
Proof.
  unfold multi_summary_axis, add_summary_rows, add_summary_cols.
  unfold_monad.
  match goal with
  | |- context [summary_output ?a ?b ?c ?d ?x] =>
      destruct (summary_output a b c d x) eqn:E
  end.
  - destruct (axis_is 0 ax); [discriminate|].
    destruct (axis_is 1 ax); discriminate.
  - intros [= <- <-]. split; [|reflexivity].
    eapply summary_output_raise; eassumption.
Qed.

(** C10. With an axis other than [0], [1] and [None], [multi_summary] never
    raises its invalid-axis [ValueError] (the exception object is built and
    dropped); when a subset is supplied the summaries are computed, one per
    (function, title) pair, none is appended to [summary_rows] or
    [summary_cols], and the instance is returned as it was. *)
Theorem multi_summary_other_axis_silent :
  forall funcs titles ax sub excl kw self,
    ax <> pd.AxNone -> ax <> pd.AxInt 0 -> ax <> pd.AxInt 1 ->
    (forall self',
        multi_summary funcs titles ax sub excl kw self
        <> (Raise (ValueError
                     "Invalid axis selected. Can only use 0, 1, or None."),
            self'))
    /\ (forall s, sub = Some s ->
          multi_summary funcs titles ax sub excl kw self = (Ok tt, self)
          /\ exists output,
               summary_output (combine funcs titles) ax (Some s) kw (data self)
               = Ok output
               /\ length output = Nat.min (length funcs) (length titles)).
Proof.
  intros funcs titles ax sub excl kw self Hn H0 H1.
  assert (A0 : axis_is 0 ax = false).
  { destruct ax as [|z|s]; simpl; try reflexivity.
    apply Z.eqb_neq. congruence. }
  assert (A1 : axis_is 1 ax = false).
  { destruct ax as [|z|s]; simpl; try reflexivity.
    apply Z.eqb_neq. congruence. }
  assert (E : multi_summary funcs titles ax sub excl kw
              = multi_summary_axis funcs titles ax sub excl kw).
  { destruct ax; [congruence | reflexivity | reflexivity]. }
  rewrite E. split.
  - intros self' H. apply multi_summary_axis_raise in H.
    destruct H as [H _]. discriminate.
  - intros s ->.
    destruct (summary_output_subset (combine funcs titles) ax s kw (data self))
      as (output & Eo & L).
    split.
    + unfold multi_summary_axis. unfold_monad. rewrite A0, A1.
      destruct excl; now rewrite Eo.
    + exists output. split; [assumption|].
      now rewrite L, length_combine.
Qed.

Lemma multi_summary_other_axis_silent_witness :
  pd.AxInt 2 <> pd.AxNone /\ pd.AxInt 2 <> pd.AxInt 0
  /\ pd.AxInt 2 <> pd.AxInt 1
  /\ multi_summary [np_sum] ["Total"] (pd.AxInt 2) (Some ["A"]) None [] sample
     = (Ok tt, sample).
Proof.
  assert (Hn : pd.AxInt 2 <> pd.AxNone) by discriminate.
  assert (H0 : pd.AxInt 2 <> pd.AxInt 0) by discriminate.
  assert (H1 : pd.AxInt 2 <> pd.AxInt 1) by discriminate.
  split; [exact Hn | split; [exact H0 | split; [exact H1 |]]].
  destruct (multi_summary_other_axis_silent [np_sum] ["Total"] (pd.AxInt 2)
              (Some ["A"]) None [] sample Hn H0 H1) as [_ H].
  destruct (H ["A"] eq_refl) as [E _]. exact E.
Defined.

(** ** [axis=None] *)

(** Whatever [subset] and [exclude] are, the [axis=None] call is the
    [axis=0] call followed by the [axis=1] call, both without [subset] and
    [exclude]. *)
Lemma multi_summary_axis_none funcs titles sub excl kw :
  multi_summary funcs titles pd.AxNone sub excl kw
  = (multi_summary funcs titles (pd.AxInt 0) None None kw ;;;
     multi_summary funcs titles (pd.AxInt 1) None None kw).
Proof. reflexivity. Qed.

(** C7. On the 2x2 sample table, [multi_summary([sum], ["Total"], axis=None,
    subset=["A"])] does not act as the [axis=0] call followed by the
    [axis=1] call with the same [subset]: the recursive calls lose the
    subset, so the summary row holds the sums of both columns ([4], [6])
    where the two explicit calls give [4] and a missing value (the [None]
    of the loop, stored as NaN beside the number), and the summary column
    holds the sums of both rows ([3], [7]) where the two explicit calls
    give [None] twice. *)
Theorem multi_summary_axis_none_loses_subset :
  let both := multi_summary [np_sum] ["Total"] pd.AxNone (Some ["A"]) None [] in
  let one_by_one :=
    multi_summary [np_sum] ["Total"] (pd.AxInt 0) (Some ["A"]) None [] ;;;
    multi_summary [np_sum] ["Total"] (pd.AxInt 1) (Some ["A"]) None [] in
  map pd.values (summary_rows (exec both sample)) = [[[VInt 4; VInt 6]]]
  /\ map pd.values (summary_rows (exec one_by_one sample))
     = [[[VInt 4; VNaN]]]
  /\ map pd.values (summary_cols (exec both sample))
     = [[[VInt 3]; [VInt 7]]]
  /\ map pd.values (summary_cols (exec one_by_one sample))
     = [[[VNone]; [VNone]]]
  /\ both sample <> one_by_one sample.
Proof.
  cbv zeta.
  split; [vm_compute; reflexivity|].
  split; [vm_compute; reflexivity|].
  split; [vm_compute; reflexivity|].
  split; [vm_compute; reflexivity|].
  intros H. apply (f_equal (fun r => map pd.values (summary_rows (snd r)))) in H.
  vm_compute in H. discriminate.
Qed.

(** ** Summaries over a subset *)





Lemma nth_error_combine {A B} (xs : list A) (ys : list B) k x y :
  nth_error xs k = Some x -> nth_error ys k = Some y ->
  nth_error (combine xs ys) k = Some (x, y).
Proof.
  revert ys k; induction xs as [|a xs IH]; intros [|b ys] [|k]; simpl;
    try discriminate.
  - now intros [= ->] [= ->].
  - apply IH.
Qed.

Lemma nth_error_map_seq {A} (f : nat -> A) n j :
  (j < n)%nat -> nth_error (map f (seq 0 n)) j = Some (f j).
Proof.
  intros H. rewrite nth_error_map, nth_error_seq.
  destruct (Nat.ltb_spec j n); [reflexivity | lia].
Qed.





(** ** Formatters: the axis check *)

Lemma valid_axis_false ax :
  ax <> "columns" -> ax <> "rows" -> valid_axis ax = false.
Proof.
  intros Hc Hr. unfold valid_axis.
  apply String.eqb_neq in Hc, Hr. now rewrite Hc, Hr.
Qed.

Lemma apply_formatter_invalid_axis fm df :
  valid_axis (axis fm) = false ->
  apply_formatter fm df
  = Raise (ValueError "axis must be one of 'columns' or 'rows'").
Proof.
  unfold valid_axis, apply_formatter, formatter_index.
  intros H. apply orb_false_elim in H. destruct H as [Hc Hr].
  now rewrite Hc, Hr.
Qed.

(** With a valid axis an iteration always completes, and it keeps the two
    indexes of the table. *)
Lemma apply_formatter_valid_axis fm df :
  valid_axis (axis fm) = true ->
  exists df',
    apply_formatter fm df = Ok df'
    /\ pd.index df' = pd.index df /\ pd.columns df' = pd.columns df.
Proof.
  unfold valid_axis, apply_formatter, formatter_index. intros H.
  destruct (String.eqb (axis fm) "columns") eqn:Hc; simpl.
  - destruct (subset fm) as [sub|]; [|eexists; split; [reflexivity|now split]].
    destruct (filter _ sub); eexists; split; try reflexivity; now split.
  - simpl in H. rewrite H; simpl.
    destruct (subset fm) as [sub|]; [|eexists; split; [reflexivity|now split]].
    destruct (filter _ sub); eexists; split; try reflexivity; now split.
Qed.

Lemma apply_formatters_loop_invalid fms :
  forall self,
    (exists fm, In fm fms /\ valid_axis (axis fm) = false) ->
    exists self',
      apply_formatters_loop fms self
      = (Raise (ValueError "axis must be one of 'columns' or 'rows'"), self').
Proof.
  induction fms as [|fm rest IH]; intros self (bad & Hin & Hbad).
  - destruct Hin.
  - simpl. unfold_monad.
    destruct (valid_axis (axis fm)) eqn:Hv.
    + destruct (apply_formatter_valid_axis fm (data self) Hv) as (df' & E & _).
      rewrite E. apply IH. exists bad. split; [|assumption].
      destruct Hin as [<-|Hin]; [congruence | assumption].
    + rewrite (apply_formatter_invalid_axis fm (data self) Hv).
      now exists self.
Qed.

(** C5. Registering a formatter whose axis is neither ["rows"] nor
    ["columns"] through [_format_cells] succeeds: the formatter is appended
    and nothing is raised.  Applying the formatters of an instance that
    holds such a formatter raises the [ValueError] of the axis check; in
    particular it does so right after the registration. *)
Theorem invalid_axis_raises_on_application :
  forall func sub excl ax kw,
    ax <> "columns" -> ax <> "rows" ->
    (forall self,
        exists self' fm,
          _format_cells func sub excl ax kw self = (Ok tt, self')
          /\ formatters self' = formatters self ++ [fm]
          /\ axis fm = ax
          /\ data self' = data self)
    /\ (forall self fm,
          In fm (formatters self) -> axis fm = ax ->
          exists self',
            _apply_formatters self
            = (Raise (ValueError "axis must be one of 'columns' or 'rows'"),
               self'))
    /\ (forall self,
          exists self',
            (_format_cells func sub excl ax kw ;;; _apply_formatters) self
            = (Raise (ValueError "axis must be one of 'columns' or 'rows'"),
               self')).
Proof.
  intros func sub excl ax kw Hc Hr.
  pose proof (valid_axis_false ax Hc Hr) as Hv.
  assert (Happ : forall self fm,
             In fm (formatters self) -> axis fm = ax ->
             exists self',
               _apply_formatters self
               = (Raise (ValueError "axis must be one of 'columns' or 'rows'"),
                  self')).
  { intros self fm Hin Hax. unfold _apply_formatters. unfold_monad.
    apply apply_formatters_loop_invalid. exists fm. split; [assumption|].
    now rewrite Hax. }
  split; [|split].
  - intros self. unfold _format_cells. unfold_monad.
    eexists. eexists. split; [reflexivity|]. simpl.
    split; [reflexivity|]. split; reflexivity.
  - exact Happ.
  - intros self. unfold bind at 1. unfold _format_cells at 1. unfold modify.
    eapply Happ; simpl.
    + apply in_or_app. right. left. reflexivity.
    + reflexivity.
Qed.

Lemma invalid_axis_raises_on_application_witness :
  "index" <> "columns" /\ "index" <> "rows"
  /\ exists self',
       (_format_cells as_marked None None "index" [] ;;; _apply_formatters)
         sample
       = (Raise (ValueError "axis must be one of 'columns' or 'rows'"), self').
Proof.
  assert (Hc : "index" <> "columns") by discriminate.
  assert (Hr : "index" <> "rows") by discriminate.
  split; [exact Hc | split; [exact Hr|]].
  destruct (invalid_axis_raises_on_application as_marked None None "index" []
              Hc Hr) as (_ & _ & H).
  exact (H sample).
Defined.

(** ** Header merge in [_translate] *)

Lemma merge_header_rows_spec row0 row1 :
  merge_header_rows row0 row1
  = if forallb mergeable (combine row0 row1)
    then Some (map pick_non_blank (combine row0 row1))
    else None.
Proof.
  revert row1; induction row0 as [|c0 r0 IH]; intros [|c1 r1]; simpl;
    try reflexivity.
  rewrite IH.
  assert (Hm : mergeable (c0, c1)
               = xorb (contains "blank" (cell_class c0))
                      (contains "blank" (cell_class c1))) by reflexivity.
  assert (Hp : pick_non_blank (c0, c1)
               = if contains "blank" (cell_class c0) then c1 else c0)
    by reflexivity.
  rewrite Hm, Hp.
  destruct (contains "blank" (cell_class c0)),
    (contains "blank" (cell_class c1)); simpl; try reflexivity;
    destruct (forallb mergeable (combine r0 r1)); reflexivity.
Qed.

(** C9. [_translate] post-processes the tree of a successful render without
    raising.  A head of exactly two rows whose paired cells are all
    mergeable (one blank, one not) becomes a single row holding the
    non-blank cell of each pair; if some pair has both cells blank or
    neither blank, the head keeps its two rows; a head with another number
    of rows is left alone. *)
Theorem translate_merges_two_header_rows :
  forall translate self result formatted self',
    render_pass translate self = (Ok (result, formatted), self') ->
    exists tree,
      _translate translate self = (Ok tree, self')
      /\ head tree = merge_head (head result)
      /\ (forall row0 row1,
            head result = [row0; row1] ->
            (forallb mergeable (combine row0 row1) = true ->
             head tree = [map pick_non_blank (combine row0 row1)])
            /\ ((exists cc, In cc (combine row0 row1)
                            /\ is_blank (fst cc) = is_blank (snd cc)) ->
                head tree = [row0; row1]))
      /\ (length (head result) <> 2%nat -> head tree = head result).
Proof.
  intros translate self result formatted self' H.
  eexists. split; [|split; [|split]].
  - unfold _translate. rewrite (bind_ok _ _ _ _ _ H). unfold_monad.
    simpl. reflexivity.
  - reflexivity.
  - intros row0 row1 E; simpl. rewrite E. unfold merge_head.
    rewrite merge_header_rows_spec. split.
    + now intros ->.
    + intros (cc & Hin & Hb).
      assert (F : forallb mergeable (combine row0 row1) = false).
      { apply not_true_is_false. intros Hall.
        rewrite forallb_forall in Hall. specialize (Hall cc Hin).
        unfold mergeable in Hall. rewrite Hb in Hall.
        now rewrite xorb_nilpotent in Hall. }
      now rewrite F.
  - intros Hlen; simpl. unfold merge_head.
    destruct (head result) as [|r0 [|r1 [|r2 rest]]]; try reflexivity.
    now elim Hlen.
Qed.

Lemma translate_merges_two_header_rows_witness :
  let named :=
    {| pd.index := {| pd.labels := ["x"; "y"]; pd.names := [Some "key"] |};
       pd.columns := pd.columns sample_df;
       pd.values := pd.values sample_df |} in
  let self := __init__ named None None None None true [] in
  exists tree,
    fst (_translate example_translate self) = Ok tree
    /\ map (map cell_value) (head tree) = [[VStr "key"; VStr "A"; VStr "B"]].
Proof.
  intros named self.
  destruct (translate_merges_two_header_rows example_translate self
              (fst (example_translate named (pd.index named) (pd.columns named)
                      (table_styles self), named))
              named self eq_refl) as (tree & E & Hhead & _).
  exists tree. split.
  - now rewrite E.
  - rewrite Hhead. reflexivity.
Defined.

(** ** Formatters with an empty target *)

Lemma ignores_ret {A} (a : A) : ignores_formatters (ret a).
Proof. intros fms self. reflexivity. Qed.

Lemma ignores_lift {A} (r : result A) : ignores_formatters (lift r).
Proof. intros fms self. reflexivity. Qed.

Lemma ignores_bind {A B} (m : M A) (k : A -> M B) :
  ignores_formatters m -> (forall a, ignores_formatters (k a)) ->
  ignores_formatters (bind m k).
Proof.
  intros Hm Hk fms self. unfold bind. rewrite Hm.
  destruct (m self) as [[a|e] self1]; simpl; [apply Hk | reflexivity].
Qed.

Lemma ignores_gets {A} (f : PrettyPandas -> A) :
  (forall fms self, f (set_formatters fms self) = f self) ->
  ignores_formatters (gets f).
Proof. intros Hf fms self. unfold gets. now rewrite Hf. Qed.

Lemma ignores_modify (f : PrettyPandas -> PrettyPandas) :
  (forall fms self, f (set_formatters fms self) = set_formatters fms (f self)) ->
  ignores_formatters (modify f).
Proof. intros Hf fms self. unfold modify. now rewrite Hf. Qed.

Lemma ignores_for_each {A} (xs : list A) (body : A -> M unit) :
  (forall x, ignores_formatters (body x)) ->
  ignores_formatters (for_each xs body).
Proof.
  intros Hb. induction xs as [|x rest IH]; simpl.
  - apply ignores_ret.
  - apply ignores_bind; [apply Hb | intros _; exact IH].
Qed.

Lemma ignores_append_selector sel ps :
  ignores_formatters (_append_selector sel ps).
Proof. unfold _append_selector. apply ignores_modify. reflexivity. Qed.

Lemma ignores_apply_summaries : ignores_formatters _apply_summaries.
Proof.
  unfold _apply_summaries.
  apply ignores_bind; [apply ignores_gets; reflexivity | intros df].
  apply ignores_bind; [apply ignores_gets; reflexivity | intros scols].
  apply ignores_bind; [apply ignores_gets; reflexivity | intros srows].
  apply ignores_bind; [apply ignores_lift | intros cn].
  apply ignores_bind; [apply ignores_lift | intros rn].
  simpl.
  apply ignores_bind; [apply ignores_lift | intros df1].
  apply ignores_bind; [apply ignores_modify; reflexivity | intros _].
  apply ignores_bind; [apply ignores_lift | intros df2].
  apply ignores_bind; [apply ignores_modify; reflexivity | intros _].
  apply ignores_bind;
    [apply ignores_for_each; intros; apply ignores_append_selector | intros _].
  apply ignores_bind;
    [apply ignores_for_each; intros; apply ignores_append_selector | intros _].
  apply ignores_bind; [apply ignores_lift | intros df3].
  apply ignores_bind; [apply ignores_modify; reflexivity | intros _].
  apply ignores_bind.
  - apply ignores_for_each. intros rc.
    apply ignores_bind; [apply ignores_gets; reflexivity | intros cur].
    apply ignores_modify; reflexivity.
  - intros _.
    apply ignores_bind; [apply ignores_gets; reflexivity | intros cur].
    apply ignores_modify; reflexivity.
Qed.

Lemma ignores_apply_formatters_loop fms :
  ignores_formatters (apply_formatters_loop fms).
Proof.
  induction fms as [|fm rest IH]; simpl.
  - apply ignores_ret.
  - apply ignores_bind; [apply ignores_gets; reflexivity | intros df].
    apply ignores_bind; [apply ignores_lift | intros df'].
    apply ignores_bind; [apply ignores_modify; reflexivity | intros _].
    exact IH.
Qed.

Lemma set_formatters_same self : set_formatters (formatters self) self = self.
Proof. now destruct self. Qed.

Lemma set_data_same self : set_data (data self) self = self.
Proof. now destruct self. Qed.

Lemma ignores_keeps_formatters {A} (m : M A) self :
  ignores_formatters m -> formatters (snd (m self)) = formatters self.
Proof.
  intros Hm. specialize (Hm (formatters self) self).
  rewrite set_formatters_same in Hm.
  apply (f_equal (fun r => formatters (snd r))) in Hm. exact Hm.
Qed.

(** The render pass, stage by stage. *)
Lemma render_pass_stages translate self :
  render_pass translate self
  = match _apply_summaries self with
    | (Raise e, s1) => (Raise e, s1)
    | (Ok _, s1) =>
        match apply_formatters_loop (formatters s1) s1 with
        | (Raise e, s2) => (Raise e, s2)
        | (Ok _, s2) =>
            (Ok (translate (data s2) (pd.index (data s2))
                           (pd.columns (data s2)) (table_styles s2),
                 data s2),
             set_data (data self) (refresh_axes s2))
        end
    end.
Proof.
  unfold render_pass, _apply_formatters. unfold_monad. unfold pd.copy.
  destruct (_apply_summaries self) as [[[]|e] s1]; [|reflexivity].
  destruct (apply_formatters_loop (formatters s1) s1) as [[[]|e] s2];
    reflexivity.
Qed.

Lemma apply_formatters_loop_app fms1 fms2 self :
  apply_formatters_loop (fms1 ++ fms2) self
  = (apply_formatters_loop fms1 ;;; apply_formatters_loop fms2) self.
Proof.
  revert self; induction fms1 as [|fm rest IH]; intros self; simpl.
  - reflexivity.
  - unfold_monad. destruct (apply_formatter fm (data self)); [|reflexivity].
    apply IH.
Qed.

(** The loop only rewrites cells: the indexes of the table stay. *)
Lemma apply_formatters_loop_axes fms :
  forall self r self',
    apply_formatters_loop fms self = (r, self') ->
    pd.index (data self') = pd.index (data self)
    /\ pd.columns (data self') = pd.columns (data self).
Proof.
  induction fms as [|fm rest IH]; intros self r self'; simpl.
  - unfold ret. intros [= _ <-]. now split.
  - unfold_monad.
    destruct (valid_axis (axis fm)) eqn:Hv.
    + destruct (apply_formatter_valid_axis fm (data self) Hv)
        as (df' & E & Hi & Hc).
      rewrite E. intros H. apply IH in H. simpl in H.
      now rewrite Hi, Hc in H.
    + rewrite (apply_formatter_invalid_axis fm (data self) Hv).
      intros [= _ <-]. now split.
Qed.

Lemma target_labels_axes fm df df' :
  pd.index df' = pd.index df -> pd.columns df' = pd.columns df ->
  target_labels fm df' = target_labels fm df.
Proof.
  intros Hi Hc. unfold target_labels, formatter_index. now rewrite Hi, Hc.
Qed.

Lemma map_where_none {A} (mask : list bool) (f : A -> A) xs :
  (forall b, In b mask -> b = false) -> pd.map_where mask f xs = xs.
Proof.
  revert mask; induction xs as [|x rest IH]; intros [|b mask] H; simpl;
    try reflexivity.
  rewrite (H b (or_introl eq_refl)). f_equal. apply IH.
  intros b' Hb'. apply H. now right.
Qed.

Lemma applymap_columns_nil f df : pd.applymap_columns f [] df = df.
Proof.
  destruct df as [ix cols vals]. unfold pd.applymap_columns; simpl.
  f_equal. rewrite <- (map_id vals) at 2. apply map_ext. intros row.
  apply map_where_none. intros b Hb. apply in_map_iff in Hb.
  now destruct Hb as (c & <- & _).
Qed.

Lemma applymap_rows_nil f df : pd.applymap_rows f [] df = df.
Proof.
  destruct df as [ix cols vals]. unfold pd.applymap_rows; simpl.
  f_equal. apply map_where_none. intros b Hb. apply in_map_iff in Hb.
  now destruct Hb as (c & <- & _).
Qed.

(** A formatter whose target is empty leaves the table as it is. *)
Lemma apply_formatter_empty_target fm df :
  target_labels fm df = Ok [] -> apply_formatter fm df = Ok df.
Proof.
  unfold target_labels, apply_formatter.
  destruct (formatter_index (axis fm) df) as [ix|e]; simpl; [|discriminate].
  destruct (subset fm) as [sub|].
  - destruct (filter (fun s => pd.contains_label s ix) sub) as [|s0 sub'];
      [reflexivity|].
    intros [= H]. destruct (exclude fm) as [ex|].
    + rewrite H. destruct (String.eqb (axis fm) "columns");
        [now rewrite applymap_columns_nil | now rewrite applymap_rows_nil].
    + discriminate.
  - intros [= H]. destruct (exclude fm) as [ex|]; rewrite H;
      (destruct (String.eqb (axis fm) "columns");
       [now rewrite applymap_columns_nil | now rewrite applymap_rows_nil]).
Qed.

Lemma apply_formatters_loop_skip pre fm post self :
  (forall df, pd.index df = pd.index (data self) ->
              pd.columns df = pd.columns (data self) ->
              target_labels fm df = Ok []) ->
  apply_formatters_loop (pre ++ fm :: post) self
  = apply_formatters_loop (pre ++ post) self.
Proof.
  intros Ht. rewrite !apply_formatters_loop_app. unfold bind.
  destruct (apply_formatters_loop pre self) as [[[]|e] s1] eqn:E;
    [|reflexivity].
  apply apply_formatters_loop_axes in E. destruct E as [Hi Hc].
  simpl. unfold_monad.
  rewrite (apply_formatter_empty_target fm (data s1) (Ht _ Hi Hc)).
  now rewrite set_data_same.
Qed.

(** C6. A registered formatter whose resolved target label set on the
    merged table is empty has no effect at render time: its own iteration
    raises nothing and leaves the working table unchanged, and the render
    (render tree or formatted table, or the exception of another step) is
    the one obtained from the same instance without that formatter. *)
Theorem empty_target_formatter_is_noop :
  forall translate as_html pre fm post self,
    formatters self = pre ++ fm :: post ->
    target_labels fm (data (snd (_apply_summaries self))) = Ok [] ->
    (forall df, target_labels fm df = Ok [] -> apply_formatter fm df = Ok df)
    /\ fst (get_formatted_df translate as_html self)
       = fst (get_formatted_df translate as_html
                (set_formatters (pre ++ post) self))
    /\ snd (get_formatted_df translate as_html
              (set_formatters (pre ++ post) self))
       = set_formatters (pre ++ post)
           (snd (get_formatted_df translate as_html self)).
Proof.
  intros translate as_html pre fm post self Hf Ht.
  split; [exact (apply_formatter_empty_target fm)|].
  assert (Hpass :
    render_pass translate (set_formatters (pre ++ post) self)
    = (fst (render_pass translate self),
       set_formatters (pre ++ post) (snd (render_pass translate self)))).
  { rewrite !render_pass_stages.
    rewrite (ignores_apply_summaries (pre ++ post) self).
    pose proof (ignores_keeps_formatters _apply_summaries self
                  ignores_apply_summaries) as Hk.
    destruct (_apply_summaries self) as [[[]|e] s1]; simpl in *;
      [|reflexivity].
    rewrite Hk, Hf.
    rewrite (apply_formatters_loop_skip pre fm post s1).
    - rewrite (ignores_apply_formatters_loop (pre ++ post) (pre ++ post) s1).
      destruct (apply_formatters_loop (pre ++ post) s1) as [[[]|e] s2];
        reflexivity.
    - intros df Hi Hc. now rewrite (target_labels_axes fm _ _ Hi Hc). }
  unfold get_formatted_df, bind. rewrite Hpass.
  destruct (render_pass translate self) as [[[tree formatted]|e] s4]; simpl;
    [|split; reflexivity].
  destruct as_html; simpl; split; reflexivity.
Qed.

Lemma empty_target_formatter_is_noop_witness :
  let fm := {| subset := Some ["Z"]; exclude := None; axis := "columns";
               function := as_marked [] |} in
  let self := set_formatters [fm] sample in
  fst (get_formatted_df example_translate false self)
  = fst (get_formatted_df example_translate false sample).
Proof.
  intros fm self.
  assert (Hf : formatters self = [] ++ fm :: []) by reflexivity.
  assert (Ht : target_labels fm (data (snd (_apply_summaries self))) = Ok [])
    by reflexivity.
  destruct (empty_target_formatter_is_noop example_translate false [] fm []
              self Hf Ht) as (_ & E & _).
  exact E.
Defined.

(** ** The merge, stage by stage *)

Lemma for_each_append_selector {A} (xs : list A) (sel : A -> string) ps :
  forall self,
    for_each xs (fun x => _append_selector (sel x) ps) self
    = (Ok tt,
       add_styles (map (fun x => {| selector := sel x; props := ps |}) xs) self).
Proof.
  induction xs as [|x rest IH]; intros self; simpl.
  - unfold ret, add_styles. rewrite app_nil_r. now destruct self.
  - unfold bind, _append_selector, modify. rewrite IH.
    unfold add_styles; simpl. now rewrite <- app_assoc.
Qed.

Lemma for_each_loc_set pairs :
  forall self,
    for_each pairs
      (fun rc => cur <- gets data ;;
                 modify (set_data (pd.loc_set cur (fst rc) (snd rc) (VStr ""))))
      self
    = (Ok tt, set_data (blank_corners pairs (data self)) self).
Proof.
  induction pairs as [|rc rest IH]; intros self; simpl.
  - unfold ret. now rewrite set_data_same.
  - unfold_monad. rewrite IH. reflexivity.
Qed.

Lemma apply_summaries_stages self :
  _apply_summaries self
  = let df := data self in
    match first_labels pd.columns (summary_cols self) with
    | Raise e => (Raise e, self)
    | Ok cn =>
    match first_labels pd.index (summary_rows self) with
    | Raise e => (Raise e, self)
    | Ok rn =>
    match pd.concat (df :: summary_cols self) 1 with
    | Raise e => (Raise e, self)
    | Ok df1 =>
    match pd.concat (df1 :: summary_rows self) 0 with
    | Raise e => (Raise e, set_data df1 self)
    | Ok df2 =>
    match pd.getitem df2 (pd.labels (pd.columns df) ++ cn) with
    | Raise e => (Raise e, add_styles (summary_selectors self) (set_data df2 self))
    | Ok df3 =>
        (Ok tt,
         add_styles (summary_selectors self)
           (set_data
              (set_names (pd.names (pd.index df)) (pd.names (pd.columns df))
                 (blank_corners (list_prod rn cn) df3))
              self))
    end end end end end.
Proof.
  unfold _apply_summaries. cbv zeta.
  unfold bind at 1. unfold gets at 1.
  unfold bind at 1. unfold gets at 1.
  unfold bind at 1. unfold gets at 1.
  unfold bind at 1. unfold lift at 1.
  destruct (first_labels pd.columns (summary_cols self)) as [cn|e];
    [|reflexivity].
  unfold bind at 1. unfold lift at 1.
  destruct (first_labels pd.index (summary_rows self)) as [rn|e];
    [|reflexivity].
  unfold pd.shape. cbv beta iota.
  unfold bind at 1. unfold lift at 1.
  destruct (pd.concat (data self :: summary_cols self) 1) as [df1|e];
    [|reflexivity].
  unfold bind at 1. unfold modify at 1.
  unfold bind at 1. unfold lift at 1.
  destruct (pd.concat (df1 :: summary_rows self) 0) as [df2|e];
    [|reflexivity].
  unfold bind at 1. unfold modify at 1.
  unfold bind at 1. rewrite for_each_append_selector.
  unfold bind at 1. rewrite for_each_append_selector.
  unfold bind at 1. unfold lift at 1.
  destruct (pd.getitem df2 (pd.labels (pd.columns (data self)) ++ cn))
    as [df3|e].
  - unfold bind at 1. unfold modify at 1.
    unfold bind at 1. rewrite for_each_loc_set.
    unfold bind, gets, modify. simpl.
    unfold add_styles, set_data, summary_selectors, pd.shape; simpl.
    now rewrite <- app_assoc.
  - unfold add_styles, set_data, summary_selectors, pd.shape; simpl.
    now rewrite <- app_assoc.
Qed.

(** ** Sequences of summary additions *)

Lemma axis_is_eq n ax : axis_is n ax = true -> ax = pd.AxInt n.
Proof.
  destruct ax as [|z|s]; simpl; try discriminate.
  intros H. apply Z.eqb_eq in H. now subst.
Qed.

Lemma summary_output_fits fts ax sub kw df output :
  summary_output fts ax sub kw df = Ok output ->
  (axis_is 1 ax = true -> Forall2 (fits_cols df) output (map snd fts))
  /\ (axis_is 0 ax = true ->
      Forall2 (fits_rows df) (map pd.T output) (map snd fts)).
Proof.
  revert output; induction fts as [|[f t] rest IH]; intros output; simpl.
  - intros [= <-]. split; intros _; constructor.
  - destruct sub as [sub|]; simpl.
    + destruct (summary_output rest ax (Some sub) kw df) as [os|e];
        simpl; [|discriminate].
      intros [= <-]. destruct (IH os eq_refl) as [IH1 IH0].
      split; intros Hax.
      * constructor; [|now apply IH1].
        apply axis_is_eq in Hax. subst ax. now split.
      * simpl. constructor; [|now apply IH0].
        rewrite Hax. now split.
    + unfold pd.apply.
      destruct (pd.axis_number ax) as [n|e] eqn:En; simpl; [|discriminate].
      destruct (summary_output rest ax None kw df) as [os|e];
        simpl.
      * destruct (IH os eq_refl) as [IH1 IH0].
        destruct n; simpl; intros [= <-]; (split; intros Hax;
          apply axis_is_eq in Hax; subst ax; try discriminate);
          simpl; constructor; try (now split);
          try (now apply IH1); try (now apply IH0).
      * destruct n; discriminate.
Qed.

(** What a completed call of the body of [multi_summary] leaves on the
    instance. *)
Lemma multi_summary_axis_effect funcs titles ax sub excl kw self self' :
  multi_summary_axis funcs titles ax sub excl kw self = (Ok tt, self') ->
  exists sub' output,
    summary_output (combine funcs titles) ax sub' kw (data self) = Ok output
    /\ self' = if axis_is 0 ax then push_summary_rows (map pd.T output) self
               else if axis_is 1 ax then push_summary_cols output self
               else self.
Proof.
  unfold multi_summary_axis, add_summary_rows, add_summary_cols.
  unfold_monad.
  match goal with
  | |- context [summary_output ?a ?b ?c ?d ?x] =>
      destruct (summary_output a b c d x) as [output|e] eqn:E; [exists c|]
  end.
  - exists output. split; [assumption|].
    destruct (axis_is 0 ax); [congruence|].
    destruct (axis_is 1 ax); congruence.
  - discriminate.
Qed.

Lemma push_summary_cols_nil self : push_summary_cols [] self = self.
Proof. destruct self. unfold push_summary_cols; simpl. now rewrite app_nil_r. Qed.

Lemma push_summary_rows_nil self : push_summary_rows [] self = self.
Proof. destruct self. unfold push_summary_rows; simpl. now rewrite app_nil_r. Qed.

Lemma call_effect c self self' :
  call c self = (Ok tt, self') ->
  exists rows cols,
    self' = push_summary_cols cols (push_summary_rows rows self)
    /\ Forall2 (fits_rows (data self)) rows
         (if is_none (c_axis c) || axis_is 0 (c_axis c)
          then call_titles c else [])
    /\ Forall2 (fits_cols (data self)) cols
         (if is_none (c_axis c) || axis_is 1 (c_axis c)
          then call_titles c else []).
Proof.
  unfold call, multi_summary, call_titles.
  destruct (c_axis c) as [|z|s] eqn:Eax.
  - unfold bind.
    destruct (multi_summary_axis (c_funcs c) (c_titles c) (pd.AxInt 0) None
                None (c_kwargs c) self) as [[[]|e] s1] eqn:E0;
      [|discriminate].
    intros E1.
    apply multi_summary_axis_effect in E0, E1.
    destruct E0 as (sub0 & out0 & O0 & ->).
    destruct E1 as (sub1 & out1 & O1 & ->).
    simpl in *. exists (map pd.T out0), out1. split; [reflexivity|].
    split.
    + now apply (summary_output_fits _ _ _ _ _ _ O0).
    + now apply (summary_output_fits _ _ _ _ _ _ O1).
  - intros E. apply multi_summary_axis_effect in E.
    destruct E as (sub' & out & O & ->).
    destruct (summary_output_fits _ _ _ _ _ _ O) as [F1 F0].
    simpl. destruct (Z.eqb z 0) eqn:Ez0.
    + exists (map pd.T out), []. rewrite push_summary_cols_nil.
      split; [reflexivity|]. split; [now apply F0|].
      apply Z.eqb_eq in Ez0. subst z. simpl. constructor.
    + destruct (Z.eqb z 1) eqn:Ez1.
      * exists [], out. rewrite push_summary_rows_nil.
        split; [reflexivity|]. split; [constructor | now apply F1].
      * exists [], []. rewrite push_summary_rows_nil, push_summary_cols_nil.
        split; [reflexivity|]. split; constructor.
  - intros E. apply multi_summary_axis_effect in E.
    destruct E as (sub' & out & O & ->). simpl.
    exists [], []. rewrite push_summary_rows_nil, push_summary_cols_nil.
    split; [reflexivity|]. split; constructor.
Qed.

Lemma run_calls_effect calls :
  forall self self',
    run_calls calls self = (Ok tt, self') ->
    exists rows cols,
      self' = push_summary_cols cols (push_summary_rows rows self)
      /\ Forall2 (fits_rows (data self)) rows (added_row_titles calls)
      /\ Forall2 (fits_cols (data self)) cols (added_col_titles calls).
Proof.
  induction calls as [|c rest IH]; intros self self'; simpl.
  - unfold ret. intros [= <-]. exists [], [].
    rewrite push_summary_rows_nil, push_summary_cols_nil.
    split; [reflexivity|]. split; constructor.
  - change (run_calls (c :: rest) self)
      with ((call c ;;; run_calls rest) self).
    unfold bind.
    destruct (call c self) as [[[]|e] s1] eqn:Ec; [|discriminate].
    intros Er. apply call_effect in Ec.
    destruct Ec as (r1 & c1 & -> & Fr1 & Fc1).
    apply IH in Er. destruct Er as (r2 & c2 & -> & Fr2 & Fc2).
    simpl in Fr2, Fc2.
    exists (r1 ++ r2), (c1 ++ c2). split; [|split].
    + unfold push_summary_cols, push_summary_rows; simpl.
      now rewrite !app_assoc.
    + unfold added_row_titles; simpl. now apply Forall2_app.
    + unfold added_col_titles; simpl. now apply Forall2_app.
Qed.

(** ** Labels under concatenation and selection *)

Lemma nodupb_NoDup xs : pd.nodupb xs = true <-> NoDup xs.
Proof.
  induction xs as [|x r IH]; simpl.
  - split; [constructor | reflexivity].
  - rewrite andb_true_iff, negb_true_iff, mem_false_not_In, IH.
    split.
    + intros [H1 H2]. now constructor.
    + intros H. inversion H; subst. now split.
Qed.

Lemma union_labels_app acc l1 l2 :
  pd.union_labels acc (l1 ++ l2)
  = pd.union_labels (pd.union_labels acc l1) l2.
Proof.
  revert acc; induction l1 as [|x r IH]; intros acc; simpl;
    [reflexivity | apply IH].
Qed.

Lemma union_labels_fresh l : forall acc,
  NoDup (acc ++ l) -> pd.union_labels acc l = acc ++ l.
Proof.
  induction l as [|x r IH]; intros acc H; simpl.
  - now rewrite app_nil_r.
  - assert (Hx : mem x acc = false).
    { apply mem_false_not_In. intros Hin.
      apply NoDup_remove_2 in H. apply H. apply in_or_app. now left. }
    rewrite Hx, IH; rewrite <- app_assoc; [reflexivity | exact H].
Qed.

Lemma union_labels_known l : forall acc,
  (forall x, In x l -> In x acc) -> pd.union_labels acc l = acc.
Proof.
  induction l as [|x r IH]; intros acc H; simpl; [reflexivity|].
  assert (Hx : mem x acc = true) by (apply mem_In, H; now left).
  rewrite Hx. apply IH. intros y Hy. apply H. now right.
Qed.

Lemma positions_from_absent x l : forall n,
  ~ In x l -> pd.positions_from n x l = [].
Proof.
  induction l as [|y r IH]; intros n H; simpl; [reflexivity|].
  destruct (String.eqb_spec x y) as [->|Hne].
  - elim H. now left.
  - apply IH. intros Hin. apply H. now right.
Qed.

Lemma flat_map_ext_on {A B} (f g : A -> list B) l :
  (forall a, In a l -> f a = g a) -> flat_map f l = flat_map g l.
Proof.
  induction l as [|a r IH]; intros H; simpl; [reflexivity|].
  rewrite (H a (or_introl eq_refl)), IH; [reflexivity|].
  intros b Hb. apply H. now right.
Qed.

Lemma positions_nodup l : forall n,
  NoDup l ->
  flat_map (fun k => pd.positions_from n k l) l = seq n (length l).
Proof.
  induction l as [|a r IH]; intros n H; simpl; [reflexivity|].
  inversion H as [|? ? Ha Hr]; subst.
  rewrite String.eqb_refl, (positions_from_absent a r (S n) Ha). simpl.
  f_equal. rewrite <- (IH (S n) Hr).
  apply flat_map_ext_on. intros k Hk. simpl.
  destruct (String.eqb_spec k a) as [->|Hne]; [contradiction | reflexivity].
Qed.

Lemma map_nth_seq {A} (l : list A) d :
  map (fun j => nth j l d) (seq 0 (length l)) = l.
Proof.
  induction l as [|a r IH]; simpl; [reflexivity|].
  f_equal. rewrite <- seq_shift, map_map. exact IH.
Qed.

Lemma all_mem_true keys l :
  (forall k, In k keys -> In k l) ->
  forallb (fun k => mem k l) keys = true.
Proof.
  intros H. apply forallb_forall. intros k Hk. apply mem_In. now apply H.
Qed.

(** Selecting every column of a frame with distinct column labels, in
    their order, gives the columns back in that order. *)
Lemma getitem_all_labels df :
  NoDup (pd.labels (pd.columns df)) ->
  exists df',
    pd.getitem df (pd.labels (pd.columns df)) = Ok df'
    /\ pd.index df' = pd.index df
    /\ pd.labels (pd.columns df') = pd.labels (pd.columns df)
    /\ pd.values df'
       = map (fun row => map (fun j => nth j row VNaN)
                             (seq 0 (pd.size (pd.columns df))))
             (pd.values df).
Proof.
  intros H. unfold pd.getitem, pd.contains_label.
  rewrite all_mem_true by auto. unfold pd.positions.
  rewrite (positions_nodup _ 0 H).
  eexists. split; [reflexivity|]. simpl.
  split; [reflexivity|]. split; [apply map_nth_seq | reflexivity].
Qed.

Lemma fits_cols_first_labels df cols titles :
  Forall2 (fits_cols df) cols titles ->
  first_labels pd.columns cols = Ok titles
  /\ flat_map (fun f => pd.labels (pd.columns f)) cols = titles
  /\ pd.all_equal (pd.labels (pd.index df))
       (map (fun f => pd.labels (pd.index f)) cols) = true.
Proof.
  induction 1 as [|f t cols titles [Hi Hc] _ (IH1 & IH2 & IH3)]; simpl.
  - now repeat split.
  - unfold first_label. rewrite Hc, IH1, IH2, IH3, Hi, list_eqb_refl; simpl.
    now repeat split.
Qed.

Lemma fits_rows_first_labels df rows titles :
  Forall2 (fits_rows df) rows titles ->
  first_labels pd.index rows = Ok titles
  /\ flat_map (fun f => pd.labels (pd.index f)) rows = titles
  /\ Forall (fun l => l = pd.labels (pd.columns df))
       (map (fun f => pd.labels (pd.columns f)) rows).
Proof.
  induction 1 as [|f t rows titles [Hc Hi] _ (IH1 & IH2 & IH3)]; simpl.
  - now repeat split.
  - unfold first_label. rewrite Hi, IH1, IH2, Hc; simpl.
    repeat split. now constructor.
Qed.

(** The side-by-side concatenation of a table with fitting summary columns
    keeps the row index and appends the titles to the columns. *)
Lemma concat_fitting_cols df cols titles :
  Forall2 (fits_cols df) cols titles ->
  exists df1,
    pd.concat (df :: cols) 1 = Ok df1
    /\ pd.labels (pd.index df1) = pd.labels (pd.index df)
    /\ pd.labels (pd.columns df1) = pd.labels (pd.columns df) ++ titles.
Proof.
  intros F. destruct (fits_cols_first_labels _ _ _ F) as (_ & Hf & Ha).
  unfold pd.concat, pd.concat_cols.
  cbn [map pd.combined_labels pd.aligned]. rewrite Ha.
  cbn [rbind]. eexists. split; [reflexivity|]. cbn.
  now rewrite Hf.
Qed.

Lemma concat_labels_known (ls : list (list label)) l :
  Forall (fun l' => l' = l) ls -> forall x, In x (List.concat ls) -> In x l.
Proof.
  induction 1 as [|l' ls -> _ IH]; simpl; [contradiction|].
  intros x Hx. apply in_app_or in Hx. destruct Hx; auto.
Qed.

(** The concatenation of a table with summary rows over a prefix of its
    columns appends the titles to the row index and keeps the columns, as
    long as the column labels are distinct. *)
Lemma concat_fitting_rows df1 rows titles C S :
  pd.labels (pd.columns df1) = C ++ S ->
  NoDup (C ++ S) ->
  flat_map (fun f => pd.labels (pd.index f)) rows = titles ->
  Forall (fun l => l = C) (map (fun f => pd.labels (pd.columns f)) rows) ->
  exists df2,
    pd.concat (df1 :: rows) 0 = Ok df2
    /\ pd.labels (pd.index df2) = pd.labels (pd.index df1) ++ titles
    /\ pd.labels (pd.columns df2) = C ++ S.
Proof.
  intros Hc Hn Hf Ha.
  unfold pd.concat, pd.concat_rows.
  cbn [map pd.combined_labels pd.aligned]. rewrite Hc.
  set (rest := map (fun f => pd.labels (pd.columns f)) rows) in *.
  destruct (pd.all_equal (C ++ S) rest) eqn:Hall.
  - cbn [rbind]. eexists. split; [reflexivity|]. cbn. now rewrite Hf.
  - assert (Hnd : forallb pd.nodupb ((C ++ S) :: rest) = true).
    { simpl. apply andb_true_iff. split; [now apply nodupb_NoDup|].
      apply forallb_forall. intros l Hl.
      rewrite Forall_forall in Ha. rewrite (Ha l Hl).
      apply nodupb_NoDup. now apply NoDup_app_remove_r in Hn. }
    rewrite Hnd. cbn [rbind]. eexists. split; [reflexivity|]. cbn.
    rewrite Hf. split; [reflexivity|].
    rewrite union_labels_app, (union_labels_fresh (C ++ S) [] Hn).
    cbn [app]. apply union_labels_known. intros x Hx.
    apply in_or_app. left. eapply concat_labels_known; eassumption.
Qed.

(** [.loc] assignment at labels that exist keeps both indexes. *)
Lemma loc_set_axes df r c v :
  pd.contains_label r (pd.index df) = true ->
  pd.contains_label c (pd.columns df) = true ->
  pd.index (pd.loc_set df r c v) = pd.index df
  /\ pd.columns (pd.loc_set df r c v) = pd.columns df.
Proof.
  intros Hr Hc. unfold pd.loc_set. rewrite Hc, Hr. now split.
Qed.

Lemma blank_corners_axes pairs : forall df,
  (forall rc, In rc pairs ->
              In (fst rc) (pd.labels (pd.index df))
              /\ In (snd rc) (pd.labels (pd.columns df))) ->
  pd.index (blank_corners pairs df) = pd.index df
  /\ pd.columns (blank_corners pairs df) = pd.columns df.
Proof.
  induction pairs as [|rc rest IH]; intros df H; [now split|].
  destruct (H rc (or_introl eq_refl)) as [Hr Hc].
  destruct (loc_set_axes df (fst rc) (snd rc) (VStr "")) as [Ei Ec];
    try (now apply mem_In).
  change (blank_corners (rc :: rest) df)
    with (blank_corners rest (pd.loc_set df (fst rc) (snd rc) (VStr ""))).
  destruct (IH (pd.loc_set df (fst rc) (snd rc) (VStr ""))) as [Ei' Ec'].
  - intros rc' Hin. rewrite Ei, Ec. apply H. now right.
  - now rewrite Ei', Ec', Ei, Ec.
Qed.

(** ** The shape of the merged table *)

(** With fitting summaries and distinct column labels the merge succeeds;
    the merged table has the rows of the table followed by the summary
    rows, and the columns of the table followed by the summary columns. *)
Lemma apply_summaries_labels self row_titles col_titles :
  Forall2 (fits_rows (data self)) (summary_rows self) row_titles ->
  Forall2 (fits_cols (data self)) (summary_cols self) col_titles ->
  NoDup (pd.labels (pd.columns (data self)) ++ col_titles) ->
  exists merged,
    _apply_summaries self
    = (Ok tt, add_styles (summary_selectors self) (set_data merged self))
    /\ pd.labels (pd.index merged)
       = pd.labels (pd.index (data self)) ++ row_titles
    /\ pd.labels (pd.columns merged)
       = pd.labels (pd.columns (data self)) ++ col_titles.
Proof.
  intros Fr Fc Hn. rewrite apply_summaries_stages. cbv zeta.
  destruct (fits_cols_first_labels _ _ _ Fc) as (Ecn & _ & _).
  destruct (fits_rows_first_labels _ _ _ Fr) as (Ern & Hrt & Hrc).
  rewrite Ecn, Ern.
  destruct (concat_fitting_cols _ _ _ Fc) as (df1 & E1 & Hi1 & Hc1).
  rewrite E1.
  destruct (concat_fitting_rows df1 (summary_rows self) row_titles _ _
              Hc1 Hn Hrt Hrc) as (df2 & E2 & Hi2 & Hc2).
  rewrite E2. rewrite <- Hc2 in Hn |- *.
  destruct (getitem_all_labels df2 Hn) as (df3 & E3 & Hi3 & Hc3 & _).
  rewrite E3. eexists. split; [reflexivity|].
  destruct (blank_corners_axes (list_prod row_titles col_titles) df3)
    as [Hbi Hbc].
  { intros [r c] Hin. apply in_prod_iff in Hin. destruct Hin as [Hr Hc].
    simpl. rewrite Hi3, Hi2, Hc3, Hc2. split; apply in_or_app; now right. }
  simpl. rewrite Hbi, Hbc, Hi3, Hc3, Hi2, Hi1. now split.
Qed.

(** With valid axes only, the formatter loop completes and rewrites cells
    only. *)
Lemma apply_formatters_loop_valid fms : forall self,
  Forall (fun fm => valid_axis (axis fm) = true) fms ->
  exists df',
    apply_formatters_loop fms self = (Ok tt, set_data df' self)
    /\ pd.index df' = pd.index (data self)
    /\ pd.columns df' = pd.columns (data self).
Proof.
  induction fms as [|fm rest IH]; intros self H; simpl.
  - exists (data self). unfold ret. rewrite set_data_same. now repeat split.
  - inversion H as [|? ? Hv Hrest]; subst. unfold_monad.
    destruct (apply_formatter_valid_axis fm (data self) Hv)
      as (df1 & E & Hi & Hc).
    rewrite E.
    destruct (IH (set_data df1 self) Hrest) as (df' & E' & Hi' & Hc').
    exists df'. rewrite E'. simpl in *. split; [reflexivity|].
    split; congruence.
Qed.

Lemma replace_nulls_axes repl df :
  pd.index (replace_nulls repl df) = pd.index df
  /\ pd.columns (replace_nulls repl df) = pd.columns df.
Proof.
  unfold replace_nulls. destruct repl as [x|]; [|now split].
  generalize (pd.labels (pd.columns df)). intros cols.
  revert df; induction cols as [|c rest IH]; intros df; simpl; [now split|].
  destruct (IH (pd.fillnull_column c x df)) as [Hi Hc].
  now rewrite Hi, Hc.
Qed.

(** C1 (amended). For every table and every chain of summary additions
    such that the column labels of the table together with the titles of
    the added summary columns are pairwise distinct, the render returns a
    table whose columns are the original columns, in their order, followed
    by the summary columns in the order they were added, and whose rows are
    the original rows followed by the summary rows: the column count is the
    original one plus the number of summary columns, the row count the
    original one plus the number of summary rows.  The formatters
    registered on the instance, if any, are plain ones on the rendered
    table: their axis is ["columns"] or ["rows"], the labels of that axis
    (those of the table and the titles of the added summaries) are
    pairwise distinct, and a subset lists no label twice. *)
Theorem render_shape_distinct_columns :
  forall translate df fmts repl show extra calls self,
    run_calls calls (__init__ df None None fmts repl show extra)
    = (Ok tt, self) ->
    NoDup (pd.labels (pd.columns df) ++ added_col_titles calls) ->
    Forall (fun fm =>
              plain_formatter fm
                (pd.labels (pd.index df) ++ added_row_titles calls)
                (pd.labels (pd.columns df) ++ added_col_titles calls)
              = true)
           (formatters self) ->
    exists out self',
      get_formatted_df translate false self = (Ok (inr out), self')
      /\ pd.labels (pd.columns out)
         = pd.labels (pd.columns df) ++ added_col_titles calls
      /\ pd.labels (pd.index out)
         = pd.labels (pd.index df) ++ added_row_titles calls
      /\ length (summary_cols self) = length (added_col_titles calls)
      /\ length (summary_rows self) = length (added_row_titles calls)
      /\ pd.shape out
         = ((pd.size (pd.index df) + length (summary_rows self))%nat,
            (pd.size (pd.columns df) + length (summary_cols self))%nat).
Proof.
  intros translate df fmts repl show extra calls self Hrun Hn Hplain.
  assert (Hv : Forall (fun fm => valid_axis (axis fm) = true)
                      (formatters self)).
  { eapply Forall_impl; [|exact Hplain]. intros fm H.
    unfold plain_formatter in H.
    now apply andb_prop in H as [H _]; apply andb_prop in H as [H _]. }
  apply run_calls_effect in Hrun.
  destruct Hrun as (rows & cols & -> & Fr & Fc). simpl in Fr, Fc, Hv.
  set (self := push_summary_cols cols
                 (push_summary_rows rows
                    (__init__ df None None fmts repl show extra))) in *.
  destruct (apply_summaries_labels self _ _ Fr Fc Hn)
    as (merged & Em & Hmi & Hmc).
  unfold get_formatted_df, bind. rewrite render_pass_stages, Em.
  change (formatters (add_styles (summary_selectors self)
                                 (set_data merged self)))
    with (formatters self).
  destruct (apply_formatters_loop_valid (formatters self)
              (add_styles (summary_selectors self) (set_data merged self)) Hv)
    as (df' & El & Hi & Hc).
  rewrite El. unfold gets, ret. simpl fst. simpl snd.
  eexists. eexists. split; [reflexivity|].
  destruct (replace_nulls_axes
              (replace_all_nans_with
                 (set_data (data self)
                    (refresh_axes
                       (set_data df'
                          (add_styles (summary_selectors self)
                                      (set_data merged self))))))
              df') as [Hri Hrc].
  simpl in Hi, Hc, Hmi, Hmc.
  assert (Lc : length cols = length (added_col_titles calls))
    by (eapply Forall2_length; eassumption).
  assert (Lr : length rows = length (added_row_titles calls))
    by (eapply Forall2_length; eassumption).
  unfold pd.shape, pd.size.
  change (data (set_data df' (add_styles (summary_selectors self)
                                         (set_data merged self))))
    with df'.
  rewrite Hri, Hrc, Hi, Hc, Hmi, Hmc. simpl.
  rewrite !length_app, Lc, Lr.
  repeat split; reflexivity.
Qed.

Lemma render_shape_distinct_columns_witness :
  let calls := [mkCall [np_sum] ["Total"] pd.AxNone None None []] in
  let fm := {| subset := Some ["A"]; exclude := None; axis := "columns";
               function := as_marked [] |} in
  let self :=
    exec (run_calls calls)
         (__init__ sample_df None None (Some [fm]) None true []) in
  exists out self',
    get_formatted_df example_translate false self = (Ok (inr out), self')
    /\ pd.labels (pd.columns out) = ["A"; "B"; "Total"]
    /\ pd.labels (pd.index out) = ["x"; "y"; "Total"].
Proof.
  intros calls fm self.
  assert (Hrun : run_calls calls
                   (__init__ sample_df None None (Some [fm]) None true [])
                 = (Ok tt, self)) by reflexivity.
  assert (Hn : NoDup (pd.labels (pd.columns sample_df)
                      ++ added_col_titles calls))
    by (apply nodupb_NoDup; reflexivity).
  assert (Hv : Forall (fun fm =>
                         plain_formatter fm
                           (pd.labels (pd.index sample_df)
                            ++ added_row_titles calls)
                           (pd.labels (pd.columns sample_df)
                            ++ added_col_titles calls)
                         = true)
                      (formatters self)) by (repeat constructor).
  destruct (render_shape_distinct_columns example_translate sample_df
              (Some [fm]) None true [] calls self Hrun Hn Hv)
    as (out & self' & E & Hc & Hi & _).
  exists out, self'. split; [exact E|]. split; [exact Hc | exact Hi].
Defined.

(** C1 as stated fails when a summary column is titled like a column of
    the table: on the 2x2 sample table, one summary column titled ["A"]
    makes the label selection [data[colnames + summary_colnames]] return
    both columns labelled ["A"] for each of the two requests, so the
    rendered table has five columns where the claim counts 2 + 1. *)
Lemma render_shape_duplicate_title :
  let self :=
    exec (run_calls [mkCall [np_sum] ["A"] (pd.AxInt 1) None None []]) sample in
  exists out,
    fst (get_formatted_df example_translate false self) = Ok (inr out)
    /\ length (summary_cols self) = 1%nat
    /\ pd.labels (pd.columns out) = ["A"; "A"; "B"; "A"; "A"]
    /\ pd.size (pd.columns out)
       <> (pd.size (pd.columns sample_df) + length (summary_cols self))%nat.
Proof.
  cbv zeta. eexists. split; [vm_compute; reflexivity|].
  split; [vm_compute; reflexivity|].
  split; [vm_compute; reflexivity|]. vm_compute. discriminate.
Qed.

(** ** Rectangular tables *)

Lemma wf_iff df :
  pd.wf df = true
  <-> length (pd.values df) = pd.size (pd.index df)
      /\ Forall (fun row => length row = pd.size (pd.columns df))
                (pd.values df).
Proof.
  unfold pd.wf. rewrite andb_true_iff, Nat.eqb_eq, forallb_forall, Forall_forall.
  split; intros [H1 H2]; (split; [exact H1|]); intros row Hr;
    specialize (H2 row Hr); now apply Nat.eqb_eq.
Qed.

Lemma forallb_wf_Forall dfs :
  forallb pd.wf dfs = true <-> Forall (fun df => pd.wf df = true) dfs.
Proof. rewrite forallb_forall, Forall_forall. reflexivity. Qed.

Lemma length_flat_map_sum {A B} (f : A -> list B) (g : A -> nat) xs :
  Forall (fun x => length (f x) = g x) xs ->
  length (flat_map f xs) = list_sum (map g xs).
Proof.
  induction 1 as [|x xs Hx _ IH]; simpl; [reflexivity|].
  now rewrite length_app, Hx, IH.
Qed.

Lemma row_for_length b i r df :
  pd.wf df = true ->
  length (pd.row_for b i r df) = pd.size (pd.columns df).
Proof.
  intros Hwf. apply wf_iff in Hwf. destruct Hwf as [_ Hrows].
  rewrite Forall_forall in Hrows.
  assert (Hnth : forall k,
             length (nth k (pd.values df)
                         (repeat VNaN (pd.size (pd.columns df))))
             = pd.size (pd.columns df)).
  { intros k.
    destruct (nth_in_or_default k (pd.values df)
                (repeat VNaN (pd.size (pd.columns df)))) as [Hin| ->].
    - now apply Hrows.
    - apply repeat_length. }
  unfold pd.row_for. destruct b; [apply Hnth|].
  destruct (pd.find_pos r (pd.labels (pd.index df)));
    [apply Hnth | apply repeat_length].
Qed.

Lemma concat_cols_wf dfs df' :
  Forall (fun df => pd.wf df = true) dfs ->
  pd.concat_cols dfs = Ok df' -> pd.wf df' = true.
Proof.
  intros Hwf. unfold pd.concat_cols.
  destruct (pd.combined_labels (map (fun df => pd.labels (pd.index df)) dfs))
    as [u|e]; simpl; [|discriminate].
  intros [= <-]. apply wf_iff. unfold pd.size; simpl. split.
  - rewrite length_map, length_combine, length_seq. apply Nat.min_id.
  - apply Forall_forall. intros row Hrow. apply in_map_iff in Hrow.
    destruct Hrow as ([i r] & <- & _). simpl.
    rewrite (length_flat_map_sum _ (fun df => pd.size (pd.columns df))),
            (length_flat_map_sum (fun df => pd.labels (pd.columns df))
                                 (fun df => pd.size (pd.columns df)));
      [reflexivity | |].
    + apply Forall_forall. reflexivity.
    + eapply Forall_impl; [|exact Hwf]. intros df. apply row_for_length.
Qed.

Lemma all_equal_Forall l ls :
  pd.all_equal l ls = true <-> Forall (fun l' => l' = l) ls.
Proof.
  unfold pd.all_equal. rewrite forallb_forall, Forall_forall.
  split; intros H x Hx; specialize (H x Hx).
  - symmetry. now apply list_eqb_eq.
  - apply list_eqb_eq. now symmetry.
Qed.

Lemma concat_rows_wf dfs df' :
  Forall (fun df => pd.wf df = true) dfs ->
  pd.concat_rows dfs = Ok df' -> pd.wf df' = true.
Proof.
  intros Hwf. unfold pd.concat_rows.
  destruct (pd.combined_labels (map (fun df => pd.labels (pd.columns df)) dfs))
    as [u|e] eqn:Eu; simpl; [|discriminate].
  intros [= <-]. apply wf_iff. unfold pd.size; simpl.
  assert (Hrowsum :
    forall f : pd.DataFrame -> list (list value),
      (forall df, length (f df) = length (pd.values df)) ->
      length (flat_map f dfs)
      = length (flat_map (fun df => pd.labels (pd.index df)) dfs)).
  { intros f Hf.
    rewrite (length_flat_map_sum f (fun df => pd.size (pd.index df))),
            (length_flat_map_sum (fun df => pd.labels (pd.index df))
                                 (fun df => pd.size (pd.index df)));
      [reflexivity | |].
    - apply Forall_forall. reflexivity.
    - eapply Forall_impl; [|exact Hwf]. intros df Hdf.
      apply wf_iff in Hdf. rewrite Hf. tauto. }
  destruct (pd.aligned (map (fun df => pd.labels (pd.columns df)) dfs))
    eqn:Hal.
  - split; [apply Hrowsum; reflexivity|].
    apply Forall_forall. intros row Hrow. apply in_flat_map in Hrow.
    destruct Hrow as (df & Hdf & Hrow).
    rewrite Forall_forall in Hwf. specialize (Hwf df Hdf).
    apply wf_iff in Hwf. destruct Hwf as [_ Hrows].
    rewrite Forall_forall in Hrows. rewrite (Hrows row Hrow).
    unfold pd.size. f_equal.
    destruct dfs as [|d rest]; [destruct Hdf|].
    simpl in Eu, Hal. rewrite Hal in Eu. injection Eu as <-.
    destruct Hdf as [->|Hdf]; [reflexivity|].
    apply all_equal_Forall in Hal. rewrite Forall_forall in Hal.
    apply Hal. apply in_map_iff. now exists df.
  - split; [apply Hrowsum; intros; apply length_map|].
    apply Forall_forall. intros row Hrow. apply in_flat_map in Hrow.
    destruct Hrow as (df & _ & Hrow). apply in_map_iff in Hrow.
    destruct Hrow as (row0 & <- & _). unfold pd.reindex_row.
    apply length_map.
Qed.

Lemma getitem_wf df key df' :
  pd.wf df = true -> pd.getitem df key = Ok df' -> pd.wf df' = true.
Proof.
  intros Hwf. unfold pd.getitem.
  destruct (forallb _ key); [|discriminate].
  intros [= <-]. apply wf_iff in Hwf. destruct Hwf as [Hn _].
  apply wf_iff. unfold pd.size in *; simpl. split.
  - now rewrite length_map.
  - apply Forall_forall. intros row Hrow. apply in_map_iff in Hrow.
    destruct Hrow as (row0 & <- & _). now rewrite !length_map.
Qed.

(** In a rectangular table every position within the indexes has a cell. *)
Lemma wf_cell df i j :
  pd.wf df = true ->
  (i < pd.size (pd.index df))%nat -> (j < pd.size (pd.columns df))%nat ->
  exists v, pd.cell df i j = Some v.
Proof.
  intros Hwf Hi Hj. apply wf_iff in Hwf. destruct Hwf as [Hn Hrows].
  unfold pd.cell.
  destruct (nth_error (pd.values df) i) as [row|] eqn:Er.
  - apply nth_error_In in Er. rewrite Forall_forall in Hrows.
    specialize (Hrows row Er).
    destruct (nth_error row j) as [v|] eqn:Ev; [now exists v|].
    apply nth_error_None in Ev. lia.
  - apply nth_error_None in Er. lia.
Qed.

(** ** The cells shared by a summary row and a summary column *)

Lemma nth_error_map_where {A} (f : A -> A) xs : forall mask i,
  nth_error (pd.map_where mask f xs) i
  = match nth_error xs i with
    | Some x => Some (if nth i mask false then f x else x)
    | None => None
    end.
Proof.
  induction xs as [|x rest IH]; intros mask i.
  - destruct mask; destruct i; reflexivity.
  - destruct mask as [|b mask]; simpl.
    + destruct (nth_error (x :: rest) i) eqn:E; [|reflexivity].
      now destruct i.
    + destruct i as [|i]; simpl; [reflexivity | apply IH].
Qed.

Lemma nth_eqb_mask (x : label) labels i :
  nth i (map (String.eqb x) labels) false = true
  <-> nth_error labels i = Some x.
Proof.
  revert i; induction labels as [|y rest IH]; intros [|i]; simpl;
    try (split; discriminate).
  - destruct (String.eqb_spec x y) as [->|Hne]; split; intros H;
      try reflexivity; try discriminate.
    injection H as ->. now elim Hne.
  - apply IH.
Qed.

Lemma loc_set_present df r c v :
  pd.contains_label r (pd.index df) = true ->
  pd.contains_label c (pd.columns df) = true ->
  pd.loc_set df r c v
  = {| pd.index := pd.index df;
       pd.columns := pd.columns df;
       pd.values :=
         pd.map_where (map (String.eqb r) (pd.labels (pd.index df)))
           (pd.map_where (map (String.eqb c) (pd.labels (pd.columns df)))
                         (fun _ => v))
           (pd.values df) |}.
Proof. intros Hr Hc. unfold pd.loc_set. now rewrite Hc, Hr. Qed.

(** The cells after one [.loc] assignment at existing labels. *)
Lemma loc_set_cell df r c v i j :
  pd.contains_label r (pd.index df) = true ->
  pd.contains_label c (pd.columns df) = true ->
  pd.cell (pd.loc_set df r c v) i j
  = match pd.cell df i j with
    | Some x =>
        Some (if nth i (map (String.eqb r) (pd.labels (pd.index df))) false
                 && nth j (map (String.eqb c) (pd.labels (pd.columns df)))
                        false
              then v else x)
    | None => None
    end.
Proof.
  intros Hr Hc. rewrite (loc_set_present _ _ _ _ Hr Hc).
  unfold pd.cell; simpl. rewrite nth_error_map_where.
  destruct (nth_error (pd.values df) i) as [row|]; [|reflexivity].
  destruct (nth i (map (String.eqb r) (pd.labels (pd.index df))) false); simpl.
  - rewrite nth_error_map_where. now destruct (nth_error row j).
  - now destruct (nth_error row j).
Qed.

Lemma blank_corners_cons rc rest df :
  blank_corners (rc :: rest) df
  = blank_corners rest (pd.loc_set df (fst rc) (snd rc) (VStr "")).
Proof. reflexivity. Qed.

(** Once empty, a cell stays empty through the loop. *)
Lemma blank_corners_keeps_empty pairs : forall df i j,
  (forall rc, In rc pairs ->
              In (fst rc) (pd.labels (pd.index df))
              /\ In (snd rc) (pd.labels (pd.columns df))) ->
  pd.cell df i j = Some (VStr "") ->
  pd.cell (blank_corners pairs df) i j = Some (VStr "").
Proof.
  induction pairs as [|rc rest IH]; intros df i j H Hcell; [exact Hcell|].
  rewrite blank_corners_cons.
  destruct (H rc (or_introl eq_refl)) as [Hr Hc].
  apply mem_In in Hr, Hc.
  destruct (loc_set_axes df (fst rc) (snd rc) (VStr "") Hr Hc) as [Ei Ec].
  apply IH.
  - intros rc' Hin. rewrite Ei, Ec. apply H. now right.
  - rewrite (loc_set_cell _ _ _ _ _ _ Hr Hc), Hcell.
    now destruct (_ && _).
Qed.

(** After the loop, every existing cell whose row and column labels form
    one of the pairs is empty. *)
Lemma blank_corners_empties pairs : forall df i j r c x,
  (forall rc, In rc pairs ->
              In (fst rc) (pd.labels (pd.index df))
              /\ In (snd rc) (pd.labels (pd.columns df))) ->
  In (r, c) pairs ->
  nth_error (pd.labels (pd.index df)) i = Some r ->
  nth_error (pd.labels (pd.columns df)) j = Some c ->
  pd.cell df i j = Some x ->
  pd.cell (blank_corners pairs df) i j = Some (VStr "").
Proof.
  induction pairs as [|rc rest IH]; intros df i j r c x H Hin Hi Hj Hcell;
    [destruct Hin|].
  rewrite blank_corners_cons.
  destruct (H rc (or_introl eq_refl)) as [Hr Hc].
  apply mem_In in Hr, Hc.
  destruct (loc_set_axes df (fst rc) (snd rc) (VStr "") Hr Hc) as [Ei Ec].
  assert (Hrest : forall rc', In rc' rest ->
             In (fst rc') (pd.labels (pd.index
                (pd.loc_set df (fst rc) (snd rc) (VStr ""))))
             /\ In (snd rc') (pd.labels (pd.columns
                (pd.loc_set df (fst rc) (snd rc) (VStr ""))))).
  { intros rc' Hin'. rewrite Ei, Ec. apply H. now right. }
  pose proof (loc_set_cell df (fst rc) (snd rc) (VStr "") i j Hr Hc) as Hset.
  rewrite Hcell in Hset.
  destruct Hin as [->|Hin].
  - simpl in Hset.
    apply nth_eqb_mask in Hi, Hj. rewrite Hi, Hj in Hset. simpl in Hset.
    now apply blank_corners_keeps_empty.
  - eapply (IH _ i j r c); try eassumption; now rewrite ?Ei, ?Ec.
Qed.

Lemma first_labels_in ax frames titles :
  first_labels ax frames = Ok titles ->
  forall t, In t titles -> In t (flat_map (fun f => pd.labels (ax f)) frames).
Proof.
  revert titles; induction frames as [|f rest IH]; intros titles; simpl.
  - intros [= <-] t [].
  - unfold first_label.
    destruct (pd.labels (ax f)) as [|t0 more] eqn:El; simpl; [discriminate|].
    destruct (first_labels ax rest) as [ts|e]; simpl; [|discriminate].
    intros [= <-] t [<-|Hin].
    + now left.
    + right. apply in_or_app. right. now apply (IH ts).
Qed.

Lemma positions_from_hit x l : forall n,
  In x l ->
  exists p, In (n + p)%nat (pd.positions_from n x l) /\ nth p l "" = x.
Proof.
  induction l as [|y rest IH]; intros n Hin; [destruct Hin|]. simpl.
  destruct (String.eqb_spec x y) as [->|Hne].
  - exists 0%nat. rewrite Nat.add_0_r. split; [now left | reflexivity].
  - destruct Hin as [->|Hin]; [congruence|].
    destruct (IH (S n) Hin) as (p & Hp & Hnth).
    exists (S p). rewrite Nat.add_succ_r. now split.
Qed.

(** A successful label selection keeps the row index and carries every
    requested label. *)
Lemma getitem_labels df key df' :
  pd.getitem df key = Ok df' ->
  pd.index df' = pd.index df
  /\ forall k, In k key -> In k (pd.labels (pd.columns df')).
Proof.
  unfold pd.getitem.
  destruct (forallb (fun k => pd.contains_label k (pd.columns df)) key)
    eqn:Hall; [|discriminate].
  intros [= <-]. simpl. split; [reflexivity|].
  intros k Hk. rewrite forallb_forall in Hall.
  specialize (Hall k Hk). apply mem_In in Hall.
  destruct (positions_from_hit k _ 0 Hall) as (p & Hp & Hnth).
  apply in_map_iff. exists p. split; [exact Hnth|].
  apply in_flat_map. exists k. split; [exact Hk | exact Hp].
Qed.

Lemma concat_rows_index dfs df' :
  pd.concat_rows dfs = Ok df' ->
  pd.labels (pd.index df') = flat_map (fun df => pd.labels (pd.index df)) dfs.
Proof.
  unfold pd.concat_rows.
  destruct (pd.combined_labels _); simpl; [|discriminate].
  now intros [= <-].
Qed.

(** C2. Whenever the merge of the summaries succeeds on rectangular
    frames, every summary-row title and every summary-column title label a
    row and a column of the merged table, and every cell in a row labelled
    by a summary-row title and a column labelled by a summary-column title
    holds the empty string, whatever values the summaries carry. *)
Theorem corner_cells_are_empty :
  forall self self' rownames colnames,
    pd.wf (data self) = true ->
    forallb pd.wf (summary_rows self) = true ->
    forallb pd.wf (summary_cols self) = true ->
    first_labels pd.index (summary_rows self) = Ok rownames ->
    first_labels pd.columns (summary_cols self) = Ok colnames ->
    _apply_summaries self = (Ok tt, self') ->
    forall r c,
      In r rownames -> In c colnames ->
      In r (pd.labels (pd.index (data self')))
      /\ In c (pd.labels (pd.columns (data self')))
      /\ forall i j,
          nth_error (pd.labels (pd.index (data self'))) i = Some r ->
          nth_error (pd.labels (pd.columns (data self'))) j = Some c ->
          pd.cell (data self') i j = Some (VStr "").
Proof.
  intros self self' rn cn Hwf Hwr Hwc Ern Ecn Hrun r c Hr Hc.
  rewrite apply_summaries_stages in Hrun. cbv zeta in Hrun.
  rewrite Ecn, Ern in Hrun.
  destruct (pd.concat (data self :: summary_cols self) 1) as [df1|e] eqn:E1;
    [|discriminate].
  destruct (pd.concat (df1 :: summary_rows self) 0) as [df2|e] eqn:E2;
    [|discriminate].
  destruct (pd.getitem df2 (pd.labels (pd.columns (data self)) ++ cn))
    as [df3|e] eqn:E3; [|discriminate].
  injection Hrun as <-. simpl.
  apply forallb_wf_Forall in Hwr, Hwc.
  assert (W1 : pd.wf df1 = true)
    by (eapply concat_cols_wf; [|exact E1]; now constructor).
  assert (W2 : pd.wf df2 = true)
    by (eapply concat_rows_wf; [|exact E2]; now constructor).
  assert (W3 : pd.wf df3 = true) by (eapply getitem_wf; eassumption).
  destruct (getitem_labels _ _ _ E3) as [Hi3 Hc3].
  pose proof (concat_rows_index _ _ E2) as Hi2. simpl in Hi2.
  assert (Hpairs : forall rc, In rc (list_prod rn cn) ->
             In (fst rc) (pd.labels (pd.index df3))
             /\ In (snd rc) (pd.labels (pd.columns df3))).
  { intros [r' c'] Hin. apply in_prod_iff in Hin. destruct Hin as [Hr' Hc'].
    simpl. split.
    - rewrite Hi3, Hi2. apply in_or_app. right.
      now apply (first_labels_in pd.index _ _ Ern).
    - apply Hc3. apply in_or_app. now right. }
  destruct (blank_corners_axes _ df3 Hpairs) as [Hbi Hbc].
  rewrite Hbi, Hbc.
  destruct (Hpairs (r, c)) as [Hrin Hcin]; [now apply in_prod|].
  split; [exact Hrin | split; [exact Hcin|]].
  intros i j Hi Hj.
  change (pd.cell (blank_corners (list_prod rn cn) df3) i j
          = Some (VStr "")).
  destruct (wf_cell df3 i j W3) as (x & Hx).
  - unfold pd.size. apply nth_error_Some. congruence.
  - unfold pd.size. apply nth_error_Some. congruence.
  - eapply blank_corners_empties; try eassumption. now apply in_prod.
Qed.

Lemma corner_cells_are_empty_witness :
  let self :=
    exec (multi_summary [np_sum] ["Total"] pd.AxNone None None []) sample in
  pd.cell (data (snd (_apply_summaries self))) 2 2 = Some (VStr "").
Proof.
  intros self.
  assert (Hwf : pd.wf (data self) = true) by reflexivity.
  assert (Hwr : forallb pd.wf (summary_rows self) = true) by reflexivity.
  assert (Hwc : forallb pd.wf (summary_cols self) = true) by reflexivity.
  assert (Ern : first_labels pd.index (summary_rows self) = Ok ["Total"])
    by reflexivity.
  assert (Ecn : first_labels pd.columns (summary_cols self) = Ok ["Total"])
    by reflexivity.
  assert (Hrun : _apply_summaries self
                 = (Ok tt, snd (_apply_summaries self))) by reflexivity.
  destruct (corner_cells_are_empty self _ ["Total"] ["Total"] Hwf Hwr Hwc
              Ern Ecn Hrun "Total" "Total"
              (or_introl eq_refl) (or_introl eq_refl)) as (_ & _ & H).
  apply H; reflexivity.
Defined.

(** ** What a render leaves on the instance *)

Lemma apply_summaries_same s1 s2 :
  same_registrations s1 s2 ->
  fst (_apply_summaries s1) = fst (_apply_summaries s2)
  /\ same_registrations (snd (_apply_summaries s1)) (snd (_apply_summaries s2)).
Proof.
  intros (Hd & Hr & Hc & Hf & Hn). rewrite !apply_summaries_stages.
  cbv zeta. rewrite Hd, Hr, Hc.
  destruct (first_labels pd.columns (summary_cols s2));
    [|now repeat split].
  destruct (first_labels pd.index (summary_rows s2)); [|now repeat split].
  destruct (pd.concat (data s2 :: summary_cols s2) 1) as [df1|];
    [|now repeat split].
  destruct (pd.concat (df1 :: summary_rows s2) 0) as [df2|];
    [|now repeat split].
  destruct (pd.getitem df2 _); now repeat split.
Qed.

(** The merge writes the table and the style list only. *)
Lemma apply_summaries_keeps self :
  let self' := snd (_apply_summaries self) in
  summary_rows self' = summary_rows self
  /\ summary_cols self' = summary_cols self
  /\ formatters self' = formatters self
  /\ replace_all_nans_with self' = replace_all_nans_with self.
Proof.
  rewrite apply_summaries_stages. cbv zeta.
  destruct (first_labels pd.columns (summary_cols self));
    [|now repeat split].
  destruct (first_labels pd.index (summary_rows self)); [|now repeat split].
  destruct (pd.concat (data self :: summary_cols self) 1) as [df1|];
    [|now repeat split].
  destruct (pd.concat (df1 :: summary_rows self) 0) as [df2|];
    [|now repeat split].
  destruct (pd.getitem df2 _); now repeat split.
Qed.

Lemma apply_formatters_loop_same fms : forall s1 s2,
  same_registrations s1 s2 ->
  fst (apply_formatters_loop fms s1) = fst (apply_formatters_loop fms s2)
  /\ same_registrations (snd (apply_formatters_loop fms s1))
                        (snd (apply_formatters_loop fms s2)).
Proof.
  induction fms as [|fm rest IH]; intros s1 s2 H; simpl.
  - now split.
  - unfold_monad. destruct H as (Hd & Hr & Hc & Hf & Hn). rewrite Hd.
    destruct (apply_formatter fm (data s2)) as [df'|e].
    + apply IH. now repeat split.
    + now repeat split.
Qed.

(** The formatter loop writes the table only. *)
Lemma apply_formatters_loop_keeps fms : forall self,
  let self' := snd (apply_formatters_loop fms self) in
  summary_rows self' = summary_rows self
  /\ summary_cols self' = summary_cols self
  /\ formatters self' = formatters self
  /\ replace_all_nans_with self' = replace_all_nans_with self
  /\ table_styles self' = table_styles self.
Proof.
  induction fms as [|fm rest IH]; intros self; simpl.
  - now repeat split.
  - unfold_monad. destruct (apply_formatter fm (data self)) as [df'|e].
    + apply (IH (set_data df' self)).
    + now repeat split.
Qed.

(** Instances that agree on the table and the registrations render the
    same formatted table (or raise the same exception) and still agree
    afterwards. *)
Lemma render_pass_same translate s1 s2 :
  same_registrations s1 s2 ->
  table_of (fst (render_pass translate s1))
  = table_of (fst (render_pass translate s2))
  /\ (forall rf, fst (render_pass translate s1) = Ok rf ->
                 same_registrations (snd (render_pass translate s1))
                                    (snd (render_pass translate s2))).
Proof.
  intros H. rewrite !render_pass_stages.
  destruct (apply_summaries_same s1 s2 H) as [Ea Ha].
  destruct (_apply_summaries s1) as [[[]|e1] t1],
           (_apply_summaries s2) as [[[]|e2] t2];
    simpl in Ea, Ha; try discriminate.
  - assert (Hf : formatters t1 = formatters t2) by apply Ha.
    rewrite Hf.
    destruct (apply_formatters_loop_same (formatters t2) t1 t2 Ha) as [El Hl].
    destruct (apply_formatters_loop (formatters t2) t1) as [[[]|e1] u1],
             (apply_formatters_loop (formatters t2) t2) as [[[]|e2] u2];
      simpl in El, Hl; try discriminate.
    + destruct Hl as (Hd & Hr & Hc & Hfm & Hn). simpl. rewrite Hd.
      split; [reflexivity|]. intros rf _.
      destruct H as (Hd0 & _). now repeat split.
    + split; [simpl; congruence | intros rf; discriminate].
  - split; [simpl; congruence | intros rf; discriminate].
Qed.

(** A successful render pass puts the table back and leaves the
    registrations alone. *)
Lemma render_pass_restores translate self rf self' :
  render_pass translate self = (Ok rf, self') ->
  same_registrations self' self.
Proof.
  rewrite render_pass_stages.
  pose proof (apply_summaries_keeps self) as Hk. cbv zeta in Hk.
  destruct (_apply_summaries self) as [[[]|e] s1]; [|discriminate].
  pose proof (apply_formatters_loop_keeps (formatters s1) s1) as Hl.
  cbv zeta in Hl.
  destruct (apply_formatters_loop (formatters s1) s1) as [[[]|e] s2];
    [|discriminate].
  intros [= _ <-]. simpl in *.
  destruct Hk as (K1 & K2 & K3 & K4). destruct Hl as (L1 & L2 & L3 & L4 & _).
  unfold same_registrations; simpl. repeat split; congruence.
Qed.

(** C3 (amended). A successful render, in either output mode, leaves the
    stored table equal to its value before the render and leaves the
    registered formatters, summaries and null replacement unchanged; a
    second render of the formatted table on the same instance returns the
    table that the first one returns. *)
Theorem render_restores_table :
  forall translate as_html self out self',
    get_formatted_df translate as_html self = (Ok out, self') ->
    data self' = data self
    /\ formatters self' = formatters self
    /\ summary_rows self' = summary_rows self
    /\ summary_cols self' = summary_cols self
    /\ replace_all_nans_with self' = replace_all_nans_with self
    /\ (exists table,
          fst (get_formatted_df translate false self) = Ok (inr table)
          /\ fst (get_formatted_df translate false self') = Ok (inr table)).
Proof.
  intros translate as_html self out self' H.
  assert (Hp : exists rf, render_pass translate self = (Ok rf, self')).
  { unfold get_formatted_df, bind in H.
    destruct (render_pass translate self) as [[rf|e] s] eqn:E;
      [|discriminate].
    exists rf. destruct as_html; unfold_monad; congruence. }
  destruct Hp as (rf & Hp).
  pose proof (render_pass_restores _ _ _ _ Hp) as Hs.
  destruct Hs as (Hd & Hr & Hc & Hf & Hn).
  repeat (split; [assumption|]).
  destruct (render_pass_same translate self' self) as [Et _];
    [now repeat split|].
  exists (replace_nulls (replace_all_nans_with self) (snd rf)).
  unfold get_formatted_df, bind. rewrite Hp in *. simpl in Et.
  destruct (render_pass translate self') as [[rf'|e'] s'] eqn:E';
    simpl in Et; [|discriminate].
  injection Et as Et. unfold_monad. simpl.
  pose proof (render_pass_restores _ _ _ _ E') as (_ & _ & _ & _ & Hn').
  rewrite Hn', Hn, Et. now split.
Qed.

Lemma render_restores_table_witness :
  let self :=
    exec (multi_summary [np_sum] ["Total"] pd.AxNone None None []) sample in
  data (snd (get_formatted_df example_translate true self)) = sample_df.
Proof.
  intros self.
  assert (Hrun : get_formatted_df example_translate true self
                 = (Ok (inl (example_translate
                               (data (snd (_apply_summaries self)))
                               (pd.index (data (snd (_apply_summaries self))))
                               (pd.columns (data (snd (_apply_summaries self))))
                               (table_styles (snd (_apply_summaries self))))),
                    snd (get_formatted_df example_translate true self)))
    by (vm_compute; reflexivity).
  destruct (render_restores_table example_translate true self _ _ Hrun)
    as (Hd & _).
  exact Hd.
Defined.

(** C3 as stated fails: the selectors that the merge appends to the style
    list stay on the instance.  On the sample table with a total row, the
    style list is one selector longer after a render, the render tree of
    the second render carries the selector [tr:nth-child(3)] twice, and
    the two render trees differ. *)
Lemma second_render_tree_differs :
  let self :=
    exec (multi_summary [np_sum] ["Total"] (pd.AxInt 0) None None []) sample in
  let first := get_formatted_df example_translate true self in
  let second := get_formatted_df example_translate true (snd first) in
  (exists t1 t2,
      fst first = Ok (inl t1) /\ fst second = Ok (inl t2)
      /\ length (styles t1) = 5%nat /\ length (styles t2) = 6%nat)
  /\ length (table_styles (snd first)) = S (length (table_styles self))
  /\ fst first <> fst second.
Proof.
  cbv zeta. split; [|split].
  - eexists. eexists.
    split; [vm_compute; reflexivity|].
    split; [vm_compute; reflexivity|].
    split; vm_compute; reflexivity.
  - vm_compute; reflexivity.
  - intros H.
    apply (f_equal (fun r => match r with
                             | Ok (inl t) => length (styles t)
                             | _ => 0%nat
                             end)) in H.
    vm_compute in H. discriminate.
Qed.

(** C4. On the sample table with a total row and a formatter registered
    on the axis ["index"], the render raises the [ValueError] of the axis
    check, and the instance is left holding the merged table (three rows,
    the last one the total) in place of the stored 2x2 table: the
    restoration at the end of [get_formatted_df] is not reached. *)
Theorem failed_render_keeps_merged_table :
  let self :=
    exec (multi_summary [np_sum] ["Total"] (pd.AxInt 0) None None [] ;;;
          _format_cells as_marked None None "index" []) sample in
  let failed := get_formatted_df example_translate true self in
  fst failed = Raise (ValueError "axis must be one of 'columns' or 'rows'")
  /\ data self = sample_df
  /\ pd.labels (pd.index (data (snd failed))) = ["x"; "y"; "Total"]
  /\ pd.values (data (snd failed))
     = [[VInt 1; VInt 2]; [VInt 3; VInt 4]; [VInt 4; VInt 6]]
  /\ data (snd failed) <> data self.
Proof.
  cbv zeta.
  split; [vm_compute; reflexivity|].
  split; [vm_compute; reflexivity|].
  split; [vm_compute; reflexivity|].
  split; [vm_compute; reflexivity|].
  intros H. apply (f_equal (fun df => length (pd.values df))) in H.
  vm_compute in H. discriminate.
Qed.

(** * Further properties of the code *)

(** ** When [multi_summary] raises, and what it changes *)

Lemma summary_output_valid_axis fts ax sub kw df n :
  pd.axis_number ax = Ok n ->
  exists output, summary_output fts ax sub kw df = Ok output.
Proof.
  intros Hn. induction fts as [|[f t] rest (os & E)]; simpl.
  - now exists [].
  - rewrite E. destruct sub as [sub|]; simpl.
    + now eexists.
    + unfold pd.apply. rewrite Hn; simpl. destruct n; simpl; now eexists.
Qed.

Lemma summary_output_invalid_axis f t rest ax kw df :
  (forall n, pd.axis_number ax <> Ok n) ->
  summary_output ((f, t) :: rest) ax None kw df
  = Raise (pd.no_axis_named ax).
Proof.
  intros Hn.
  assert (H : exists e, summary_output ((f, t) :: rest) ax None kw df = Raise e).
  { simpl. unfold pd.apply.
    destruct (pd.axis_number ax) as [n|e] eqn:E; [now elim (Hn n)|].
    now exists e. }
  destruct H as (e & H). rewrite H. f_equal.
  eapply summary_output_raise; eassumption.
Qed.

(** X1. An axis that is neither [None] nor known to pandas is found out by
    [DataFrame.apply], not by [multi_summary]: with no [subset] and no
    [exclude] and at least one (function, title) pair, the call raises the
    [ValueError] of pandas, "No axis named ... for object type DataFrame",
    before any function is called, and the instance is left as it was;
    this is not the invalid-axis error of the method.  With no pair at
    all, [apply] is not reached and the call returns, leaving the instance
    as it was. *)
Theorem multi_summary_rejected_axis_raises :
  forall funcs titles ax kw self,
    ax <> pd.AxNone ->
    (forall n, pd.axis_number ax <> Ok n) ->
    (combine funcs titles <> [] ->
     multi_summary funcs titles ax None None kw self
     = (Raise (pd.no_axis_named ax), self))
    /\ pd.no_axis_named ax
       <> ValueError "Invalid axis selected. Can only use 0, 1, or None."
    /\ (forall sub excl,
          combine funcs titles = [] ->
          multi_summary funcs titles ax sub excl kw self = (Ok tt, self)).
Proof.
  intros funcs titles ax kw self Hax Hn.
  assert (Eq : forall sub excl,
             multi_summary funcs titles ax sub excl kw
             = multi_summary_axis funcs titles ax sub excl kw)
    by (intros; destruct ax; [congruence | reflexivity | reflexivity]).
  assert (A0 : axis_is 0 ax = false).
  { destruct ax as [|z|s]; simpl; try reflexivity.
    apply Z.eqb_neq. intros ->. now apply (Hn 0%nat). }
  assert (A1 : axis_is 1 ax = false).
  { destruct ax as [|z|s]; simpl; try reflexivity.
    apply Z.eqb_neq. intros ->. now apply (Hn 1%nat). }
  split; [|split].
  - intros Hne. rewrite Eq. unfold multi_summary_axis. unfold_monad.
    destruct (combine funcs titles) as [|[f t] rest]; [congruence|].
    now rewrite (summary_output_invalid_axis f t rest ax kw (data self) Hn).
  - discriminate.
  - intros sub excl Hnil. rewrite Eq. unfold multi_summary_axis. unfold_monad.
    rewrite Hnil, A0, A1. simpl.
    destruct excl as [ex|], sub as [sub|]; reflexivity.
Qed.

Lemma multi_summary_rejected_axis_raises_witness :
  multi_summary [np_sum] ["Total"] (pd.AxInt 2) None None [] sample
  = (Raise (ValueError "No axis named 2 for object type DataFrame"), sample).
Proof.
  assert (Hax : pd.AxInt 2 <> pd.AxNone) by discriminate.
  assert (Hn : forall n, pd.axis_number (pd.AxInt 2) <> Ok n)
    by (intros n; discriminate).
  assert (Hne : combine [np_sum] ["Total"] <> []) by discriminate.
  destruct (multi_summary_rejected_axis_raises [np_sum] ["Total"] (pd.AxInt 2)
              [] sample Hax Hn) as [H _].
  exact (H Hne).
Defined.



(** X3. Edge cases of [subset] and [exclude] on the axes [0] and [1].
    [exclude] takes part only when [subset] is omitted: with a subset
    given, the call with an [exclude] list is the call without it.  A
    subset that lists every label of the summarised axis, like an
    [exclude] list that names none of them, changes nothing: the call adds
    the summaries of the call without [subset] and [exclude]. *)
Theorem multi_summary_subset_exclude_edges :
  forall funcs titles (z : Z) sub ex kw self,
    z = 0%Z \/ z = 1%Z ->
    let axis_labels :=
      pd.labels (if Z.eqb z 0 then pd.columns (data self)
                 else pd.index (data self)) in
    multi_summary funcs titles (pd.AxInt z) (Some sub) (Some ex) kw self
    = multi_summary funcs titles (pd.AxInt z) (Some sub) None kw self
    /\ ((forall l, In l axis_labels -> In l sub) ->
        multi_summary funcs titles (pd.AxInt z) (Some sub) None kw self
        = multi_summary funcs titles (pd.AxInt z) None None kw self)
    /\ ((forall l, In l axis_labels -> ~ In l ex) ->
        multi_summary funcs titles (pd.AxInt z) None (Some ex) kw self
        = multi_summary funcs titles (pd.AxInt z) None None kw self).
Proof.
  intros funcs titles z sub ex kw self Hz axis_labels.
  assert (Hcore : forall s,
             (forall l, In l axis_labels -> In l s) ->
             summary_output (combine funcs titles) (pd.AxInt z) (Some s) kw
                            (data self)
             = summary_output (combine funcs titles) (pd.AxInt z) None kw
                              (data self)).
  { intros s Hs. subst axis_labels.
    induction (combine funcs titles) as [|[f t] rest IH]; simpl;
      [reflexivity|].
    rewrite IH. unfold pd.apply.
    assert (Hmap : forall (items : list (label * list value)),
               (forall it, In it items -> In (fst it) s) ->
               map (fun it => if mem (fst it) s then f kw (snd it) else VNone)
                   items
               = map (fun it => f kw (snd it)) items).
    { intros items Hit. apply map_ext_in. intros it Hin.
      apply Hit, mem_In in Hin. now rewrite Hin. }
    destruct Hz as [-> | ->]; simpl; unfold pd.from_column, pd.to_frame;
      simpl; rewrite Hmap; try reflexivity.
    - intros [l vals] Hin. apply Hs. simpl.
      unfold pd.iteritems in Hin. now apply in_combine_l in Hin.
    - intros [l vals] Hin. apply Hs. simpl.
      unfold pd.iterrows in Hin. now apply in_combine_l in Hin. }
  split; [reflexivity|]. split; intros H.
  - simpl. unfold multi_summary_axis. unfold_monad. now rewrite Hcore.
  - simpl. unfold multi_summary_axis. unfold_monad.
    assert (Haxis : (if axis_is 0 (pd.AxInt z) then pd.columns (data self)
                     else pd.index (data self))
                    = (if Z.eqb z 0 then pd.columns (data self)
                       else pd.index (data self))) by reflexivity.
    rewrite Haxis, Hcore; [reflexivity|].
    intros l Hl. apply filter_In. split; [exact Hl|].
    apply negb_true_iff, mem_false_not_In. now apply H.
Qed.

Lemma multi_summary_subset_exclude_edges_witness :
  multi_summary [np_sum] ["Total"] (pd.AxInt 0) (Some ["B"; "A"]) None []
                sample
  = multi_summary [np_sum] ["Total"] (pd.AxInt 0) None None [] sample.
Proof.
  assert (Hz : 0%Z = 0%Z \/ 0%Z = 1%Z) by (left; reflexivity).
  destruct (multi_summary_subset_exclude_edges [np_sum] ["Total"] 0
              ["B"; "A"] [] [] sample Hz) as (_ & H & _).
  apply H. simpl. intros l [<-|[<-|[]]]; simpl; tauto.
Defined.

(** ** What a formatter rewrites *)

(** The iteration of one formatter is an [applymap] over its resolved
    target labels, along its axis. *)
Lemma apply_formatter_target fm df targets :
  target_labels fm df = Ok targets ->
  apply_formatter fm df
  = Ok (if String.eqb (axis fm) "columns"
        then pd.applymap_columns (function fm) targets df
        else pd.applymap_rows (function fm) targets df).
Proof.
  unfold target_labels, apply_formatter.
  destruct (formatter_index (axis fm) df) as [ix|e]; simpl; [|discriminate].
  destruct (subset fm) as [sub|].
  - destruct (filter (fun s => pd.contains_label s ix) sub) as [|s0 sub'] eqn:Ef.
    + intros H.
      assert (targets = [])
        by (destruct (exclude fm); simpl in H; now injection H as <-).
      subst targets.
      destruct (String.eqb (axis fm) "columns");
        [now rewrite applymap_columns_nil | now rewrite applymap_rows_nil].
    + intros [= <-]. now destruct (String.eqb (axis fm) "columns").
  - intros [= <-]. now destruct (String.eqb (axis fm) "columns").
Qed.

Lemma applymap_columns_cell f targets df i j c :
  nth_error (pd.labels (pd.columns df)) j = Some c ->
  pd.cell (pd.applymap_columns f targets df) i j
  = option_map (fun v => if mem c targets then f v else v) (pd.cell df i j).
Proof.
  intros Hc. unfold pd.cell, pd.applymap_columns; simpl.
  rewrite nth_error_map.
  destruct (nth_error (pd.values df) i) as [row|]; simpl; [|reflexivity].
  rewrite nth_error_map_where.
  destruct (nth_error row j) as [v|]; simpl; [|reflexivity].
  rewrite (nth_error_nth _ _ false
             (eq_trans (nth_error_map _ _ _)
                       (f_equal (option_map _) Hc))).
  reflexivity.
Qed.

Lemma applymap_rows_cell f targets df i j r :
  nth_error (pd.labels (pd.index df)) i = Some r ->
  pd.cell (pd.applymap_rows f targets df) i j
  = option_map (fun v => if mem r targets then f v else v) (pd.cell df i j).
Proof.
  intros Hr. unfold pd.cell, pd.applymap_rows; simpl.
  rewrite nth_error_map_where.
  destruct (nth_error (pd.values df) i) as [row|]; simpl; [|reflexivity].
  rewrite (nth_error_nth _ _ false
             (eq_trans (nth_error_map _ _ _)
                       (f_equal (option_map _) Hr))).
  destruct (mem r targets).
  - rewrite nth_error_map. reflexivity.
  - now destruct (nth_error row j).
Qed.

Lemma NoDup_filter_labels (p : label -> bool) xs :
  NoDup xs -> NoDup (filter p xs).
Proof.
  induction 1 as [|x xs Hx _ IH]; simpl; [constructor|].
  destruct (p x); [|exact IH].
  constructor; [|exact IH]. intros Hin. apply filter_In in Hin.
  now destruct Hin.
Qed.

Lemma plain_formatter_valid fm rows cols :
  plain_formatter fm rows cols = true -> valid_axis (axis fm) = true.
Proof.
  unfold plain_formatter. intros H.
  now apply andb_prop in H as [H _]; apply andb_prop in H as [H _].
Qed.

(** The list of labels that a plain formatter hands to [.loc] names no
    label twice, on an axis without repeated labels. *)
Lemma plain_formatter_selection fm df targets :
  plain_formatter fm (pd.labels (pd.index df)) (pd.labels (pd.columns df))
  = true ->
  target_labels fm df = Ok targets ->
  pd.unique_selection targets
    (axis_labels fm (pd.labels (pd.index df)) (pd.labels (pd.columns df)))
  = true.
Proof.
  unfold plain_formatter, pd.unique_selection, axis_labels, valid_axis.
  intros H Ht.
  apply andb_prop in H as [H Hsub]. apply andb_prop in H as [Hv Hax].
  rewrite Hax, andb_true_r.
  apply nodupb_NoDup in Hax.
  assert (Hix : formatter_index (axis fm) df
                = Ok (if String.eqb (axis fm) "columns"
                      then pd.columns df else pd.index df)).
  { unfold formatter_index.
    destruct (String.eqb (axis fm) "columns"); [reflexivity|].
    simpl in Hv. now rewrite Hv. }
  unfold target_labels in Ht. rewrite Hix in Ht. simpl in Ht.
  injection Ht as <-. apply nodupb_NoDup.
  assert (Hbase : NoDup match subset fm with
                        | Some sub =>
                            filter (fun s => pd.contains_label s
                                       (if String.eqb (axis fm) "columns"
                                        then pd.columns df else pd.index df))
                                   sub
                        | None =>
                            pd.labels (if String.eqb (axis fm) "columns"
                                       then pd.columns df else pd.index df)
                        end).
  { destruct (subset fm) as [sub|].
    - apply NoDup_filter_labels. now apply nodupb_NoDup.
    - now destruct (String.eqb (axis fm) "columns"). }
  destruct (exclude fm); [now apply NoDup_filter_labels | exact Hbase].
Qed.

(** X4. One plain formatter rewrites exactly the cells under its target
    labels.  The labels it hands to [.loc] (the subset restricted to the
    labels of the table, or the whole axis, minus [exclude]) are pairwise
    distinct; along ["columns"] a cell is replaced by the function's value
    when its column label is among them and is left alone otherwise;
    along ["rows"] the same holds with the row label.  The two indexes of
    the table are kept. *)
Theorem formatter_rewrites_target_cells :
  forall fm df targets,
    plain_formatter fm (pd.labels (pd.index df)) (pd.labels (pd.columns df))
    = true ->
    target_labels fm df = Ok targets ->
    pd.unique_selection targets
      (axis_labels fm (pd.labels (pd.index df)) (pd.labels (pd.columns df)))
    = true
    /\ exists df',
      apply_formatter fm df = Ok df'
      /\ pd.index df' = pd.index df /\ pd.columns df' = pd.columns df
      /\ forall i j r c,
          nth_error (pd.labels (pd.index df)) i = Some r ->
          nth_error (pd.labels (pd.columns df)) j = Some c ->
          pd.cell df' i j
          = option_map
              (fun v =>
                 if mem (if String.eqb (axis fm) "columns" then c else r)
                        targets
                 then function fm v else v)
              (pd.cell df i j).
Proof.
  intros fm df targets Hplain Ht.
  split; [now apply plain_formatter_selection|].
  rewrite (apply_formatter_target fm df targets Ht).
  eexists. split; [reflexivity|].
  destruct (String.eqb (axis fm) "columns"); simpl.
  - split; [reflexivity|]. split; [reflexivity|].
    intros i j r c _ Hc. now apply applymap_columns_cell.
  - split; [reflexivity|]. split; [reflexivity|].
    intros i j r c Hr _. now apply applymap_rows_cell.
Qed.

Lemma formatter_rewrites_target_cells_witness :
  let fm := {| subset := Some ["B"; "A"; "Z"]; exclude := Some ["B"];
               axis := "columns"; function := as_marked [] |} in
  exists df',
    apply_formatter fm sample_df = Ok df'
    /\ pd.cell df' 0 0 = Some (VStr "1%")
    /\ pd.cell df' 0 1 = Some (VInt 2).
Proof.
  intros fm.
  assert (Hp : plain_formatter fm (pd.labels (pd.index sample_df))
                 (pd.labels (pd.columns sample_df)) = true) by reflexivity.
  assert (Ht : target_labels fm sample_df = Ok ["A"]) by reflexivity.
  destruct (formatter_rewrites_target_cells fm sample_df ["A"] Hp Ht)
    as (_ & df' & E & _ & _ & Hcell).
  exists df'. split; [exact E|]. split.
  - rewrite (Hcell 0%nat 0%nat "x" "A" eq_refl eq_refl). reflexivity.
  - rewrite (Hcell 0%nat 1%nat "x" "B" eq_refl eq_refl). reflexivity.
Defined.

Lemma map_where_length {A} (f : A -> A) xs : forall mask,
  length (pd.map_where mask f xs) = length xs.
Proof.
  induction xs as [|x rest IH]; intros [|b mask]; simpl; try reflexivity.
  now rewrite IH.
Qed.

Lemma map_where_In {A} (g : A -> A) xs : forall mask y,
  In y (pd.map_where mask g xs) -> exists x, In x xs /\ (y = x \/ y = g x).
Proof.
  induction xs as [|x rest IH]; intros [|b mask] y; simpl;
    try contradiction.
  - intros H. exists y. split; [exact H | now left].
  - intros [<-|H].
    + exists x. split; [now left|]. destruct b; auto.
    + destruct (IH mask y H) as (x' & Hin & Hy). exists x'. auto.
Qed.

Lemma applymap_columns_wf f t df :
  pd.wf df = true -> pd.wf (pd.applymap_columns f t df) = true.
Proof.
  intros Hwf. apply wf_iff in Hwf. destruct Hwf as [Hn Hrows].
  apply wf_iff. unfold pd.applymap_columns; simpl. split.
  - now rewrite length_map.
  - apply Forall_forall. intros row Hrow. apply in_map_iff in Hrow.
    destruct Hrow as (row0 & <- & Hin). rewrite map_where_length.
    rewrite Forall_forall in Hrows. now apply Hrows.
Qed.

Lemma applymap_rows_wf f t df :
  pd.wf df = true -> pd.wf (pd.applymap_rows f t df) = true.
Proof.
  intros Hwf. apply wf_iff in Hwf. destruct Hwf as [Hn Hrows].
  apply wf_iff. unfold pd.applymap_rows; simpl. split.
  - now rewrite map_where_length.
  - apply Forall_forall. intros row Hrow. apply map_where_In in Hrow.
    destruct Hrow as (row0 & Hin & [->| ->]);
      rewrite Forall_forall in Hrows; rewrite ?length_map; now apply Hrows.
Qed.

Lemma apply_formatter_wf fm df df' :
  apply_formatter fm df = Ok df' -> pd.wf df = true -> pd.wf df' = true.
Proof.
  intros E Hwf. unfold apply_formatter in E.
  destruct (formatter_index (axis fm) df) as [ix|e]; simpl in E;
    [|discriminate].
  destruct (subset fm) as [sub|].
  - destruct (filter _ sub).
    + now injection E as <-.
    + destruct (String.eqb (axis fm) "columns"); injection E as <-;
        [now apply applymap_columns_wf | now apply applymap_rows_wf].
  - destruct (String.eqb (axis fm) "columns"); injection E as <-;
      [now apply applymap_columns_wf | now apply applymap_rows_wf].
Qed.

Lemma apply_formatters_loop_wf fms : forall self r self',
  apply_formatters_loop fms self = (r, self') ->
  pd.wf (data self) = true -> pd.wf (data self') = true.
Proof.
  induction fms as [|fm rest IH]; intros self r self'; simpl.
  - unfold ret. now intros [= _ <-].
  - unfold_monad.
    destruct (apply_formatter fm (data self)) as [df'|e] eqn:E.
    + intros H Hwf. apply (IH _ _ _ H). simpl.
      eapply apply_formatter_wf; eassumption.
    + now intros [= _ <-].
Qed.

(** The loop ends normally or on the axis check. *)
Lemma apply_formatters_loop_outcome fms : forall self r self',
  apply_formatters_loop fms self = (r, self') ->
  r = Ok tt
  \/ r = Raise (ValueError "axis must be one of 'columns' or 'rows'").
Proof.
  induction fms as [|fm rest IH]; intros self r self'; simpl.
  - unfold ret. intros [= <- _]. now left.
  - unfold_monad.
    destruct (valid_axis (axis fm)) eqn:Hv.
    + destruct (apply_formatter_valid_axis fm (data self) Hv) as (df' & E & _).
      rewrite E. apply IH.
    + rewrite (apply_formatter_invalid_axis fm (data self) Hv).
      intros [= <- _]. now right.
Qed.

(** X5. Applying formatters that are plain ones, or are refused for their
    axis, never adds, removes or relabels a row or a column, whether the
    loop completes or stops at an invalid axis: the working table keeps
    its two indexes and stays rectangular, and the registered summaries,
    formatters and styles are not touched. *)
Theorem apply_formatters_keeps_shape :
  forall self r self',
    Forall (fun fm =>
              valid_axis (axis fm) = true ->
              plain_formatter fm (pd.labels (pd.index (data self)))
                              (pd.labels (pd.columns (data self))) = true)
           (formatters self) ->
    _apply_formatters self = (r, self') ->
    (r = Ok tt
     \/ r = Raise (ValueError "axis must be one of 'columns' or 'rows'"))
    /\ pd.index (data self') = pd.index (data self)
    /\ pd.columns (data self') = pd.columns (data self)
    /\ (pd.wf (data self) = true -> pd.wf (data self') = true)
    /\ summary_rows self' = summary_rows self
    /\ summary_cols self' = summary_cols self
    /\ formatters self' = formatters self
    /\ table_styles self' = table_styles self.
Proof.
  intros self r self' _ H. unfold _apply_formatters in H. unfold_monad.
  split.
  { destruct r as [[]|e]; [now left | right].
    destruct (apply_formatters_loop_outcome _ _ _ _ H) as [Hr|Hr];
      [discriminate | exact Hr]. }
  destruct (apply_formatters_loop_axes _ _ _ _ H) as [Hi Hc].
  pose proof (apply_formatters_loop_keeps (formatters self) self) as Hk.
  cbv zeta in Hk. rewrite H in Hk. simpl in Hk.
  destruct Hk as (K1 & K2 & K3 & _ & K5).
  repeat (split; [assumption|]). split; [|now repeat split].
  eapply apply_formatters_loop_wf; eassumption.
Qed.

Lemma apply_formatters_keeps_shape_witness :
  let self := exec (_format_cells as_marked (Some ["A"]) None "columns" [] ;;;
                    _format_cells as_marked None None "index" []) sample in
  pd.columns (data (snd (_apply_formatters self))) = pd.columns sample_df.
Proof.
  intros self.
  assert (Hp : Forall (fun fm =>
                         valid_axis (axis fm) = true ->
                         plain_formatter fm
                           (pd.labels (pd.index (data self)))
                           (pd.labels (pd.columns (data self))) = true)
                      (formatters self)).
  { repeat constructor. discriminate. }
  destruct (apply_formatters_keeps_shape self
              (fst (_apply_formatters self)) (snd (_apply_formatters self))
              Hp)
    as (_ & _ & Hc & _).
  - now destruct (_apply_formatters self).
  - exact Hc.
Defined.

(** X6. When plain formatters are followed by a formatter with an invalid
    axis, they have been applied by the time the [ValueError] of the axis
    check is raised: the working table is the one they produce, not the
    table the application started from. *)
Theorem apply_formatters_stops_at_invalid_axis :
  forall pre bad post self,
    formatters self = pre ++ bad :: post ->
    Forall (fun fm =>
              plain_formatter fm (pd.labels (pd.index (data self)))
                              (pd.labels (pd.columns (data self))) = true)
           pre ->
    valid_axis (axis bad) = false ->
    exists df',
      apply_formatters_loop pre self = (Ok tt, set_data df' self)
      /\ _apply_formatters self
         = (Raise (ValueError "axis must be one of 'columns' or 'rows'"),
            set_data df' self).
Proof.
  intros pre bad post self Hf Hplain Hbad.
  assert (Hpre : Forall (fun fm => valid_axis (axis fm) = true) pre).
  { eapply Forall_impl; [|exact Hplain]. intros fm.
    apply plain_formatter_valid. }
  destruct (apply_formatters_loop_valid pre self Hpre) as (df' & E & _).
  exists df'. split; [exact E|].
  unfold _apply_formatters. unfold bind at 1. unfold gets at 1.
  rewrite Hf, apply_formatters_loop_app. unfold bind at 1. rewrite E.
  simpl. unfold_monad.
  now rewrite (apply_formatter_invalid_axis bad _ Hbad).
Qed.

Lemma apply_formatters_stops_at_invalid_axis_witness :
  let self := exec (_format_cells as_marked (Some ["A"]) None "columns" [] ;;;
                    _format_cells as_marked None None "index" []) sample in
  exists df',
    _apply_formatters self
    = (Raise (ValueError "axis must be one of 'columns' or 'rows'"),
       set_data df' self)
    /\ pd.values df' = [[VStr "1%"; VInt 2]; [VStr "3%"; VInt 4]].
Proof.
  intros self.
  set (good := {| subset := Some ["A"]; exclude := None; axis := "columns";
                  function := as_marked [] |}).
  set (bad := {| subset := None; exclude := None; axis := "index";
                 function := as_marked [] |}).
  assert (Hf : formatters self = [good] ++ bad :: []) by reflexivity.
  assert (Hpre : Forall (fun fm =>
                           plain_formatter fm
                             (pd.labels (pd.index (data self)))
                             (pd.labels (pd.columns (data self))) = true)
                        [good])
    by (repeat constructor).
  assert (Hbad : valid_axis (axis bad) = false) by reflexivity.
  destruct (apply_formatters_stops_at_invalid_axis [good] bad [] self
              Hf Hpre Hbad) as (df' & E & H).
  exists df'. split; [exact H|].
  vm_compute in E. now injection E as <-.
Defined.




(** ** The merge without summaries *)

Lemma index_eta (ix : pd.Index) :
  {| pd.labels := pd.labels ix; pd.names := pd.names ix |} = ix.
Proof. now destruct ix. Qed.

Lemma names_eqb_refl n : pd.names_eqb n n = true.
Proof.
  induction n as [|a n IH]; simpl; [reflexivity|].
  rewrite IH. destruct a; simpl; [now rewrite String.eqb_refl | reflexivity].
Qed.

Lemma map_fst_combine_seq {A B} (g : nat -> B) (ys : list A) n :
  length ys = n ->
  map (fun ir : nat * A => g (fst ir)) (combine (seq 0 n) ys)
  = map g (seq 0 n).
Proof.
  generalize 0%nat as start. revert ys.
  induction n as [|n IH]; intros ys start Hl; simpl; [reflexivity|].
  destruct ys as [|y ys]; [discriminate|]. simpl. f_equal.
  apply IH. now injection Hl.
Qed.

(** Selecting every column of a rectangular table with distinct column
    labels gives the table back. *)
Lemma getitem_all_labels_id df :
  pd.wf df = true -> NoDup (pd.labels (pd.columns df)) ->
  pd.getitem df (pd.labels (pd.columns df)) = Ok df.
Proof.
  intros Hwf Hn. destruct (getitem_all_labels df Hn) as (df' & E & Hi & Hc & Hv).
  rewrite E. f_equal.
  assert (Hnames : pd.names (pd.columns df') = pd.names (pd.columns df)).
  { unfold pd.getitem in E. destruct (forallb _ _); [|discriminate].
    now injection E as <-. }
  apply wf_iff in Hwf. destruct Hwf as [_ Hrows].
  destruct df' as [ix' cols' vals'], df as [ix cols vals]. simpl in *.
  subst ix'. f_equal.
  - destruct cols', cols. simpl in *. congruence.
  - rewrite Hv. rewrite <- (map_id vals) at 2. apply map_ext_in.
    intros row Hrow. rewrite Forall_forall in Hrows.
    rewrite <- (Hrows row Hrow). apply map_nth_seq.
Qed.

(** Concatenating a single rectangular table, along either axis, gives the
    table back. *)
Lemma concat_single df axis :
  pd.wf df = true -> pd.concat [df] axis = Ok df.
Proof.
  intros Hwf. apply wf_iff in Hwf. destruct Hwf as [Hn Hrows].
  destruct df as [ix cols vals]. unfold pd.size in *. simpl in *.
  destruct axis as [|axis]; simpl.
  - unfold pd.concat_rows; simpl. rewrite list_eqb_refl || idtac.
    unfold pd.unanimous_names; simpl. rewrite !app_nil_r.
    now rewrite !index_eta.
  - unfold pd.concat_cols; simpl.
    unfold pd.unanimous_names; simpl. rewrite !app_nil_r, !index_eta.
    do 2 f_equal.
    rewrite (map_ext _ (fun ir : nat * label =>
                          nth (fst ir) vals
                              (repeat VNaN (length (pd.labels cols)))))
      by (intros; unfold pd.row_for; simpl; apply app_nil_r).
    rewrite (map_fst_combine_seq
               (fun i => nth i vals (repeat VNaN (length (pd.labels cols))))
               (pd.labels ix) (length (pd.labels ix)) eq_refl).
    rewrite <- Hn. apply map_nth_seq.
Qed.

Lemma add_styles_nil self : add_styles [] self = self.
Proof. destruct self. unfold add_styles; simpl. now rewrite app_nil_r. Qed.

Lemma set_names_same df :
  set_names (pd.names (pd.index df)) (pd.names (pd.columns df)) df = df.
Proof. destruct df as [[] [] ?]. reflexivity. Qed.

(** X8. With no summary registered, the merge leaves a rectangular table
    with distinct column labels exactly as it is and appends no selector;
    the render of a freshly wrapped table then hands that very table to
    the underlying renderer, returns it in table mode, and leaves the
    instance as it was. *)
Theorem render_without_summaries_is_identity :
  forall translate df repl show extra,
    pd.wf df = true ->
    NoDup (pd.labels (pd.columns df)) ->
    let self := __init__ df None None None repl show extra in
    _apply_summaries self = (Ok tt, self)
    /\ get_formatted_df translate true self
       = (Ok (inl (translate df (pd.index df) (pd.columns df)
                             (table_styles self))), self)
    /\ get_formatted_df translate false self
       = (Ok (inr (replace_nulls repl df)), self).
Proof.
  intros translate df repl show extra Hwf Hn self.
  assert (Hm : _apply_summaries self = (Ok tt, self)).
  { rewrite apply_summaries_stages. cbv zeta. simpl first_labels.
    change (summary_cols self) with (@nil pd.DataFrame).
    change (summary_rows self) with (@nil pd.DataFrame).
    change (data self) with df.
    rewrite !(concat_single df _ Hwf). rewrite app_nil_r.
    rewrite (getitem_all_labels_id df Hwf Hn).
    simpl list_prod. unfold blank_corners. simpl fold_left.
    rewrite set_names_same.
    change (summary_selectors self) with (@nil Style).
    rewrite add_styles_nil. reflexivity. }
  split; [exact Hm|].
  assert (Hp : render_pass translate self
               = (Ok (translate df (pd.index df) (pd.columns df)
                                (table_styles self), df), self)).
  { rewrite render_pass_stages, Hm. reflexivity. }
  unfold get_formatted_df, bind. rewrite Hp. split; reflexivity.
Qed.

Lemma render_without_summaries_is_identity_witness :
  get_formatted_df example_translate false sample
  = (Ok (inr sample_df), sample).
Proof.
  assert (Hwf : pd.wf sample_df = true) by reflexivity.
  assert (Hn : NoDup (pd.labels (pd.columns sample_df)))
    by (apply nodupb_NoDup; reflexivity).
  destruct (render_without_summaries_is_identity example_translate sample_df
              None true [] Hwf Hn) as (_ & _ & H).
  exact H.
Defined.

(** ** The cells of the merged table *)












Lemma nth_map_eqb (x : label) labels i li :
  nth_error labels i = Some li ->
  nth i (map (String.eqb x) labels) false = String.eqb x li.
Proof.
  intros H. apply nth_error_nth. now rewrite nth_error_map, H.
Qed.







Section MergedTable.

(** An instance whose table and summaries are rectangular, whose summaries
    fit the table (as those added by [multi_summary] do) and whose column
    labels stay distinct once the summary-column titles are added. *)
Variable self : PrettyPandas.
Variables row_titles col_titles : list label.
Hypothesis table_wf : pd.wf (data self) = true.
Hypothesis rows_wf : Forall (fun f => pd.wf f = true) (summary_rows self).
Hypothesis cols_wf : Forall (fun f => pd.wf f = true) (summary_cols self).
Hypothesis rows_fit :
  Forall2 (fits_rows (data self)) (summary_rows self) row_titles.
Hypothesis cols_fit :
  Forall2 (fits_cols (data self)) (summary_cols self) col_titles.
Hypothesis distinct_columns :
  NoDup (pd.labels (pd.columns (data self)) ++ col_titles).




End MergedTable.





(** ** What a successful render writes on the instance *)

Lemma enumerate_length {A} (xs : list A) : length (enumerate xs) = length xs.
Proof.
  unfold enumerate. rewrite length_combine, length_seq. apply Nat.min_id.
Qed.

(** X12. A successful render, in either mode, appends to the style list
    one selector per registered summary row and one per registered summary
    column, and leaves the Styler attributes [index] and [columns] set to
    the indexes of the merged and formatted table; the render tree is the
    underlying translation of that table with the extended style list, the
    table output is that table after the null replacement. *)
Theorem render_appends_selectors :
  forall translate as_html self out self',
    get_formatted_df translate as_html self = (Ok out, self') ->
    table_styles self' = table_styles self ++ summary_selectors self
    /\ length (summary_selectors self)
       = (length (summary_rows self) + length (summary_cols self))%nat
    /\ exists formatted,
         index self' = pd.index formatted
         /\ columns self' = pd.columns formatted
         /\ out = if as_html
                  then inl (translate formatted (pd.index formatted)
                                      (pd.columns formatted)
                                      (table_styles self'))
                  else inr (replace_nulls (replace_all_nans_with self)
                                          formatted).
Proof.
  intros translate as_html self out self' H.
  unfold get_formatted_df, bind in H. rewrite render_pass_stages in H.
  pose proof (apply_summaries_stages self) as Hst. cbv zeta in Hst.
  pose proof (apply_summaries_keeps self) as Hk. cbv zeta in Hk.
  destruct (_apply_summaries self) as [[[]|e] s1] eqn:Ea; [|discriminate].
  assert (Hsty : table_styles s1 = table_styles self ++ summary_selectors self).
  { destruct (first_labels pd.columns (summary_cols self)); [|discriminate].
    destruct (first_labels pd.index (summary_rows self)); [|discriminate].
    destruct (pd.concat (data self :: summary_cols self) 1) as [df1|];
      [|discriminate].
    destruct (pd.concat (df1 :: summary_rows self) 0) as [df2|];
      [|discriminate].
    destruct (pd.getitem df2 _); [|discriminate].
    injection Hst as Hst. now rewrite Hst. }
  pose proof (apply_formatters_loop_keeps (formatters s1) s1) as Hl.
  cbv zeta in Hl.
  destruct (apply_formatters_loop (formatters s1) s1) as [[[]|e] s2];
    [|discriminate].
  simpl in Hl, Hk. destruct Hl as (_ & _ & _ & L4 & L5).
  destruct Hk as (_ & _ & _ & K4).
  split; [|split].
  - destruct as_html; unfold_monad; injection H as _ <-; simpl; congruence.
  - unfold summary_selectors, pd.shape.
    now rewrite length_app, !length_map, !enumerate_length.
  - exists (data s2).
    destruct as_html; unfold_monad; injection H as <- <-; simpl;
      repeat split; congruence.
Qed.

Lemma render_appends_selectors_witness :
  let self :=
    exec (multi_summary [np_sum] ["Total"] pd.AxNone None None []) sample in
  length (table_styles (snd (get_formatted_df example_translate true self)))
  = 6%nat.
Proof.
  intros self.
  assert (Hrun : get_formatted_df example_translate true self
                 = (Ok (inl (example_translate
                               (data (snd (_apply_summaries self)))
                               (pd.index (data (snd (_apply_summaries self))))
                               (pd.columns (data (snd (_apply_summaries self))))
                               (table_styles (snd (_apply_summaries self))))),
                    snd (get_formatted_df example_translate true self)))
    by (vm_compute; reflexivity).
  destruct (render_appends_selectors example_translate true self _ _ Hrun)
    as (Hs & Hl & _).
  rewrite Hs, length_app, Hl. reflexivity.
Defined.

(** ** Merges that fail *)

Lemma first_labels_cases ax frames :
  (exists titles, first_labels ax frames = Ok titles)
  \/ first_labels ax frames
     = Raise (IndexError "index 0 is out of bounds for axis 0 with size 0").
Proof.
  induction frames as [|f rest IH]; simpl; [left; now eexists|].
  unfold first_label. destruct (pd.labels (ax f)); simpl; [now right|].
  destruct IH as [(ts & ->)| ->]; simpl; [left; now eexists | now right].
Qed.

Lemma first_labels_empty ax frames :
  Exists (fun f => pd.labels (ax f) = []) frames ->
  first_labels ax frames
  = Raise (IndexError "index 0 is out of bounds for axis 0 with size 0").
Proof.
  induction 1 as [f rest Hf | f rest _ IH]; simpl; unfold first_label.
  - now rewrite Hf.
  - destruct (pd.labels (ax f)); simpl; [reflexivity | now rewrite IH].
Qed.

(** X13. A summary frame without a label to take its title from (a
    summary column without columns, a summary row without rows, as can be
    handed to the constructor) makes the merge raise [IndexError] before
    anything is written: the instance is left as it was. *)
Theorem merge_empty_summary_frame :
  forall self,
    Exists (fun f => pd.labels (pd.columns f) = []) (summary_cols self)
    \/ Exists (fun f => pd.labels (pd.index f) = []) (summary_rows self) ->
    _apply_summaries self
    = (Raise (IndexError "index 0 is out of bounds for axis 0 with size 0"),
       self).
Proof.
  intros self H. rewrite apply_summaries_stages. cbv zeta.
  destruct H as [H|H].
  - now rewrite (first_labels_empty pd.columns _ H).
  - destruct (first_labels_cases pd.columns (summary_cols self))
      as [(ts & ->)| ->]; [|reflexivity].
    now rewrite (first_labels_empty pd.index _ H).
Qed.

Lemma merge_empty_summary_frame_witness :
  let empty := {| pd.index := {| pd.labels := []; pd.names := [None] |};
                  pd.columns := pd.columns sample_df;
                  pd.values := [] |} in
  let self := __init__ sample_df (Some [empty]) None None None true [] in
  _apply_summaries self
  = (Raise (IndexError "index 0 is out of bounds for axis 0 with size 0"),
     self).
Proof.
  intros empty self.
  apply (merge_empty_summary_frame self). right. now constructor.
Defined.

(** X14. When summary rows and summary columns are both registered and
    the column labels of the table together with the summary-column titles
    are not pairwise distinct, the merge fails: the concatenation of the
    summary rows raises [InvalidIndexError], and the stored table has by
    then been replaced by the table with the summary columns attached. *)
Theorem merge_duplicate_column_title :
  forall self row_titles col_titles,
    Forall2 (fits_rows (data self)) (summary_rows self) row_titles ->
    Forall2 (fits_cols (data self)) (summary_cols self) col_titles ->
    row_titles <> [] -> col_titles <> [] ->
    ~ NoDup (pd.labels (pd.columns (data self)) ++ col_titles) ->
    exists df1,
      _apply_summaries self
      = (Raise (InvalidIndexError
                  "Reindexing only valid with uniquely valued Index objects"),
         set_data df1 self)
      /\ pd.labels (pd.columns df1)
         = pd.labels (pd.columns (data self)) ++ col_titles.
Proof.
  intros self rt ct Fr Fc Hrt Hct Hdup.
  destruct (concat_fitting_cols _ _ _ Fc) as (df1 & E1 & Hi1 & Hc1).
  destruct (fits_cols_first_labels _ _ _ Fc) as (Ecn & _ & _).
  destruct (fits_rows_first_labels _ _ _ Fr) as (Ern & _ & Hrc).
  exists df1. split; [|exact Hc1].
  rewrite apply_summaries_stages. cbv zeta. rewrite Ecn, Ern, E1.
  assert (E2 : pd.concat (df1 :: summary_rows self) 0
               = Raise (InvalidIndexError
                   "Reindexing only valid with uniquely valued Index objects")).
  { unfold pd.concat, pd.concat_rows.
    cbn [map pd.combined_labels]. rewrite Hc1.
    destruct (summary_rows self) as [|r rows].
    - inversion Fr; subst. now elim Hrt.
    - simpl in Hrc. inversion Hrc as [|? ? Hr _]; subst.
      cbn [map pd.all_equal forallb]. rewrite Hr.
      assert (Hne : list_eqb (pd.labels (pd.columns (data self)) ++ ct)
                             (pd.labels (pd.columns (data self))) = false).
      { apply not_true_is_false. intros Heq. apply list_eqb_eq in Heq.
        rewrite <- (app_nil_r (pd.labels (pd.columns (data self)))) in Heq
          at 2.
        apply app_inv_head in Heq. contradiction. }
      unfold pd.all_equal. cbn [forallb]. rewrite Hne. cbn [andb].
      assert (Hnd : pd.nodupb (pd.labels (pd.columns (data self)) ++ ct)
                    = false).
      { apply not_true_is_false. intros Hnd. apply nodupb_NoDup in Hnd.
        contradiction. }
      rewrite Hnd. reflexivity. }
  now rewrite E2.
Qed.

Lemma merge_duplicate_column_title_witness :
  let self :=
    exec (multi_summary [np_sum] ["A"] pd.AxNone None None []) sample in
  exists df1,
    _apply_summaries self
    = (Raise (InvalidIndexError
                "Reindexing only valid with uniquely valued Index objects"),
       set_data df1 self)
    /\ pd.labels (pd.columns df1) = ["A"; "B"; "A"].
Proof.
  intros self.
  assert (Fr : Forall2 (fits_rows (data self)) (summary_rows self) ["A"])
    by (repeat constructor).
  assert (Fc : Forall2 (fits_cols (data self)) (summary_cols self) ["A"])
    by (repeat constructor).
  assert (Hne : ["A"] <> @nil label) by discriminate.
  assert (Hdup : ~ NoDup (pd.labels (pd.columns (data self)) ++ ["A"])).
  { intros H. apply nodupb_NoDup in H. discriminate. }
  exact (merge_duplicate_column_title self ["A"] ["A"] Fr Fc Hne Hne Hdup).
Defined.

(** ** Null replacement *)

Lemma fillnull_column_cell col x df i j lj :
  nth_error (pd.labels (pd.columns df)) j = Some lj ->
  pd.cell (pd.fillnull_column col x df) i j
  = option_map (fun v => if String.eqb col lj
                         then (if pd.isnull v then x else v) else v)
               (pd.cell df i j).
Proof.
  intros Hj. unfold pd.cell, pd.fillnull_column; simpl.
  rewrite nth_error_map.
  destruct (nth_error (pd.values df) i) as [row|]; simpl; [|reflexivity].
  rewrite nth_error_map_where, (nth_map_eqb _ _ _ _ Hj).
  now destruct (nth_error row j).
Qed.

Lemma fillnull_fold_cell x cols : forall df i j lj,
  nth_error (pd.labels (pd.columns df)) j = Some lj ->
  pd.cell (fold_left (fun acc col => pd.fillnull_column col x acc) cols df) i j
  = option_map (fun v => if mem lj cols
                         then (if pd.isnull v then x else v) else v)
               (pd.cell df i j).
Proof.
  induction cols as [|c rest IH]; intros df i j lj Hj; simpl.
  - now destruct (pd.cell df i j).
  - rewrite (IH _ i j lj) by exact Hj.
    rewrite (fillnull_column_cell c x df i j lj Hj).
    destruct (pd.cell df i j) as [v|]; simpl; [|reflexivity].
    rewrite (String.eqb_sym lj c).
    destruct (String.eqb c lj); simpl; [|reflexivity].
    destruct (mem lj rest); [|reflexivity].
    destruct (pd.isnull v) eqn:Ev; [|now rewrite Ev].
    now destruct (pd.isnull x).
Qed.

(** X15. In table mode the null replacement, on a table with pairwise
    distinct column labels, rewrites every null cell and nothing else:
    with [replace_all_nans_with] set to [x], a cell holding [None] or NaN
    comes out as [x] and every other cell comes out unchanged, under the
    same labels; without the setting the table is returned as it is. *)
Theorem replace_nulls_cells :
  forall x df,
    NoDup (pd.labels (pd.columns df)) ->
    replace_nulls None df = df
    /\ pd.index (replace_nulls (Some x) df) = pd.index df
    /\ pd.columns (replace_nulls (Some x) df) = pd.columns df
    /\ forall i j lj,
        nth_error (pd.labels (pd.columns df)) j = Some lj ->
        pd.cell (replace_nulls (Some x) df) i j
        = option_map (fun v => if pd.isnull v then x else v) (pd.cell df i j).
Proof.
  intros x df _. split; [reflexivity|].
  destruct (replace_nulls_axes (Some x) df) as [Hi Hc].
  split; [exact Hi|]. split; [exact Hc|].
  intros i j lj Hj. unfold replace_nulls.
  rewrite (fillnull_fold_cell x _ df i j lj Hj).
  now rewrite (proj2 (mem_In lj _) (nth_error_In _ _ Hj)).
Qed.

Lemma replace_nulls_cells_witness :
  let df := {| pd.index := pd.index sample_df;
               pd.columns := pd.columns sample_df;
               pd.values := [[VNaN; VNone]; [VInt 3; VStr ""]] |} in
  pd.values (replace_nulls (Some (VStr "-")) df)
  = [[VStr "-"; VStr "-"]; [VInt 3; VStr ""]]
  /\ pd.cell (replace_nulls (Some (VStr "-")) df) 0 1 = Some (VStr "-").
Proof.
  intros df.
  assert (Hn : NoDup (pd.labels (pd.columns df)))
    by (apply nodupb_NoDup; reflexivity).
  destruct (replace_nulls_cells (VStr "-") df Hn) as (_ & _ & _ & H).
  split; [vm_compute; reflexivity|].
  rewrite (H 0%nat 1%nat "B" eq_refl). reflexivity.
Defined.

(** X16. In the render tree the null replacement is narrower than in table
    mode: [_translate] rewrites the display value of the body cells whose
    value is NaN, and of those only; a cell whose value is [None] keeps
    its display value, and no cell changes its value or its class. *)
Theorem translate_replaces_nan_only :
  forall translate self result formatted self' x,
    render_pass translate self = (Ok (result, formatted), self') ->
    replace_all_nans_with self = Some x ->
    exists tree,
      _translate translate self = (Ok tree, self')
      /\ styles tree = styles result
      /\ length (body tree) = length (body result)
      /\ forall i row,
          nth_error (body result) i = Some row ->
          exists row',
            nth_error (body tree) i = Some row'
            /\ length row' = length row
            /\ forall j c,
                nth_error row j = Some c ->
                exists c',
                  nth_error row' j = Some c'
                  /\ cell_value c' = cell_value c
                  /\ cell_class c' = cell_class c
                  /\ display_value c'
                     = match cell_value c with
                       | VNaN => x
                       | _ => display_value c
                       end.
Proof.
  intros translate self result formatted self' x H Hx.
  pose proof (render_pass_restores _ _ _ _ H) as (_ & _ & _ & _ & Hn).
  eexists. split; [|split; [|split]].
  - unfold _translate. rewrite (bind_ok _ _ _ _ _ H). unfold_monad.
    simpl. reflexivity.
  - reflexivity.
  - simpl. rewrite Hn, Hx. simpl. apply length_map.
  - intros i row Hrow. simpl. rewrite Hn, Hx. simpl.
    eexists. split; [now rewrite nth_error_map, Hrow|].
    split; [apply length_map|].
    intros j c Hc. eexists. split; [now rewrite nth_error_map, Hc|].
    destruct c as [cls v d]. simpl. destruct v; simpl; now repeat split.
Qed.

Lemma translate_replaces_nan_only_witness :
  let df := {| pd.index := pd.index sample_df;
               pd.columns := pd.columns sample_df;
               pd.values := [[VNaN; VNone]; [VInt 3; VInt 4]] |} in
  let self := __init__ df None None None (Some (VStr "N/A")) true [] in
  exists tree,
    fst (_translate example_translate self) = Ok tree
    /\ map (map display_value) (body tree)
       = [[VStr "x"; VStr "N/A"; VNone]; [VStr "y"; VInt 3; VInt 4]].
Proof.
  intros df self.
  assert (Hrun : render_pass example_translate self
                 = (Ok (example_translate df (pd.index df) (pd.columns df)
                                          (table_styles self), df), self))
    by (vm_compute; reflexivity).
  destruct (translate_replaces_nan_only example_translate self _ _ _
              (VStr "N/A") Hrun eq_refl) as (tree & E & _).
  exists tree. rewrite E. split; [reflexivity|].
  vm_compute in E. injection E as <-. reflexivity.
Defined.

(** ** The merged header row *)

Lemma merge_header_rows_length row0 : forall row1 merged,
  merge_header_rows row0 row1 = Some merged ->
  length merged = Nat.min (length row0) (length row1).
Proof.
  induction row0 as [|c0 r0 IH]; intros [|c1 r1] merged; simpl;
    try (now intros [= <-]).
  destruct (negb (contains "blank" (cell_class c0))
            && contains "blank" (cell_class c1)).
  - destruct (merge_header_rows r0 r1) as [m|] eqn:E; simpl; [|discriminate].
    intros [= <-]. simpl. f_equal. now apply IH.
  - destruct (contains "blank" (cell_class c0)
              && negb (contains "blank" (cell_class c1))); [|discriminate].
    destruct (merge_header_rows r0 r1) as [m|] eqn:E; simpl; [|discriminate].
    intros [= <-]. simpl. f_equal. now apply IH.
Qed.

(** X17. The header merge pairs the cells of the two rows with [zip]: a
    merged header row is as long as the shorter of the two rows, so the
    cells that the longer row has in excess are dropped.  The merge yields
    a head of one row or leaves the head alone, and merging again changes
    nothing. *)
Theorem merge_head_zip_and_idempotent :
  forall h,
    (forall row0 row1 merged,
        h = [row0; row1] -> merge_head h = [merged] ->
        length merged = Nat.min (length row0) (length row1))
    /\ (merge_head h = h \/ exists merged, merge_head h = [merged])
    /\ merge_head (merge_head h) = merge_head h.
Proof.
  intros h. split; [|split].
  - intros row0 row1 merged -> H. unfold merge_head in H.
    destruct (merge_header_rows row0 row1) as [m|] eqn:E; [|discriminate].
    injection H as <-. now apply merge_header_rows_length.
  - unfold merge_head. destruct h as [|r0 [|r1 [|r2 rest]]]; auto.
    destruct (merge_header_rows r0 r1); [right; now eexists | now left].
  - destruct h as [|r0 [|r1 [|r2 rest]]]; try reflexivity.
    assert (H : merge_head [r0; r1]
                = match merge_header_rows r0 r1 with
                  | Some merged => [merged]
                  | None => [r0; r1]
                  end) by reflexivity.
    destruct (merge_header_rows r0 r1) as [m|]; rewrite H;
      [reflexivity | now rewrite H].
Qed.

(** ** The shortcuts [total], [average], [median], [max] and [min] *)




Lemma iteritems_nth df j :
  (j < pd.size (pd.columns df))%nat ->
  exists c, nth_error (pd.iteritems df) j = Some (c, pd.column_values df j).
Proof.
  intros Hj.
  destruct (nth_error (pd.labels (pd.columns df)) j) as [c|] eqn:Ec;
    [|apply nth_error_None in Ec; unfold pd.size in Hj; lia].
  exists c. unfold pd.iteritems.
  apply nth_error_combine; [exact Ec | now apply nth_error_map_seq].
Qed.




(** ** Summaries on both axes, and formatters on summary cells *)

Lemma multi_summary_axis_valid_effect funcs titles (z : Z) sub excl kw self :
  z = 0%Z \/ z = 1%Z ->
  exists output,
    multi_summary funcs titles (pd.AxInt z) sub excl kw self
    = (Ok tt, if Z.eqb z 0 then push_summary_rows (map pd.T output) self
              else push_summary_cols output self)
    /\ forall other,
        data other = data self ->
        multi_summary funcs titles (pd.AxInt z) sub excl kw other
        = (Ok tt, if Z.eqb z 0 then push_summary_rows (map pd.T output) other
                  else push_summary_cols output other).
Proof.
  intros Hz.
  assert (Hn : exists n, pd.axis_number (pd.AxInt z) = Ok n)
    by (destruct Hz as [-> | ->]; now eexists).
  destruct Hn as (n & Hn).
  set (sub' := match excl, sub with
               | Some ex, None =>
                   Some (filter (fun n => negb (mem n ex))
                                (pd.labels (if axis_is 0 (pd.AxInt z)
                                            then pd.columns (data self)
                                            else pd.index (data self))))
               | _, _ => sub
               end).
  destruct (summary_output_valid_axis (combine funcs titles) (pd.AxInt z)
              sub' kw (data self) n Hn) as (output & E).
  exists output.
  assert (H : forall other, data other = data self ->
             multi_summary funcs titles (pd.AxInt z) sub excl kw other
             = (Ok tt, if Z.eqb z 0
                       then push_summary_rows (map pd.T output) other
                       else push_summary_cols output other)).
  { intros other Hd. unfold multi_summary, multi_summary_axis,
      add_summary_rows, add_summary_cols. unfold_monad.
    rewrite Hd. fold sub'. rewrite E.
    destruct Hz as [-> | ->]; reflexivity. }
  split; [now apply H | exact H].
Qed.

(** X19. Row summaries and column summaries do not see each other: they
    are computed from the stored table when they are added and kept in
    separate lists, so adding a summary on axis [0] and then one on axis
    [1] leaves the instance exactly as adding them in the other order. *)
Theorem summaries_commute_across_axes :
  forall funcs0 titles0 sub0 excl0 kw0 funcs1 titles1 sub1 excl1 kw1 self,
    (multi_summary funcs0 titles0 (pd.AxInt 0) sub0 excl0 kw0 ;;;
     multi_summary funcs1 titles1 (pd.AxInt 1) sub1 excl1 kw1) self
    = (multi_summary funcs1 titles1 (pd.AxInt 1) sub1 excl1 kw1 ;;;
       multi_summary funcs0 titles0 (pd.AxInt 0) sub0 excl0 kw0) self.
Proof.
  intros funcs0 titles0 sub0 excl0 kw0 funcs1 titles1 sub1 excl1 kw1 self.
  destruct (multi_summary_axis_valid_effect funcs0 titles0 0 sub0 excl0 kw0
              self (or_introl eq_refl)) as (out0 & E0 & H0).
  destruct (multi_summary_axis_valid_effect funcs1 titles1 1 sub1 excl1 kw1
              self (or_intror eq_refl)) as (out1 & E1 & H1).
  change (Z.eqb 0 0) with true in *. change (Z.eqb 1 0) with false in *.
  cbv beta iota in E0, E1, H0, H1.
  unfold bind. rewrite E0, E1.
  rewrite (H1 (push_summary_rows (map pd.T out0) self) eq_refl).
  rewrite (H0 (push_summary_cols out1 self) eq_refl).
  reflexivity.
Qed.


